(** * Push-notification dispatch, trigger listener and device registration

    A shallow embedding of
    - [supabase/functions/send-expo-notification/index.ts]
      ([handler], [sendToAllUsers], [sendToUser], [sendExpoNotification]),
    - [src/services/notificationService.ts] (the realtime INSERT callback of
      [setupNotificationListeners]),
    - [src/services/expoNotificationService.ts] ([ExpoNotificationService]).

    Asynchronous code is sequential here ([await] on every call), so it is
    embedded as a state-and-exception monad over the tables and the log of
    network calls.  The collaborators (the Supabase client, [fetch], the Expo
    SDK) answer through an explicit environment record. *)

From Stdlib Require Import String Ascii List Bool Arith ZArith Lia DecimalString.
Import ListNotations.
Local Open Scope string_scope.
Local Open Scope list_scope.

(* ===================================================================== *)
(** ** JSON values and the JavaScript operators the sources use on them  *)
(* ===================================================================== *)

Module Json.

#[warnings="-register-all"]
Inductive JValue : Type :=
| JNull
| JBool (b : bool)
| JNum (n : Z)
| JStr (s : string)
| JArr (items : list JValue)
| JObj (fields : list (string * JValue)).

(** A JavaScript object literal: keys in insertion order, no key twice. *)
Definition JObject : Type := list (string * JValue).

(** [if (s)] on a string: the empty string is falsy. *)
Definition truthy_string (s : string) : bool := negb (s =? "").

(** [if (v)] on a JSON value. *)
Definition truthy (v : JValue) : bool :=
  match v with
  | JNull => false
  | JBool b => b
  | JNum n => negb (n =? 0)%Z
  | JStr s => truthy_string s
  | JArr _ => true
  | JObj _ => true
  end.

(** [x || d] where [x] may be [undefined] ([None]). *)
Definition js_or {A : Type} (is_truthy : A -> bool) (x : option A) (d : A) : A :=
  match x with
  | Some v => if is_truthy v then v else d
  | None => d
  end.

(** [if (x)] on an optional string: the value when it is truthy. *)
Definition when_truthy (x : option string) : option string :=
  match x with
  | Some s => if truthy_string s then Some s else None
  | None => None
  end.

(** [o.k]: [None] is [undefined]. *)
Fixpoint lookup (k : string) (o : JObject) : option JValue :=
  match o with
  | [] => None
  | (k', v) :: o' => if k =? k' then Some v else lookup k o'
  end.

(** [o[k] = v]: an existing key keeps its position. *)
Fixpoint obj_set (k : string) (v : JValue) (o : JObject) : JObject :=
  match o with
  | [] => [(k, v)]
  | (k', v') :: o' =>
      if k =? k' then (k, v) :: o' else (k', v') :: obj_set k v o'
  end.

(** [{ ...dst, ...src }]: the entries of [src] are assigned in order. *)
Definition obj_spread (dst src : JObject) : JObject :=
  fold_left (fun acc kv => obj_set (fst kv) (snd kv) acc) src dst.

(** [`${n}`] for a count. *)
Definition string_of_nat (n : nat) : string :=
  NilEmpty.string_of_uint (Nat.to_uint n).

End Json.

(* ===================================================================== *)
(** ** Sequential code with exceptions over a mutable world              *)
(* ===================================================================== *)

Module Js.

Inductive Outcome (A : Type) : Type :=
| Returns (a : A)
| Throws (msg : string).
Arguments Returns {A} a.
Arguments Throws {A} msg.

(** A computation over the world [W]: what it returns or throws, and the
    world it leaves. *)
Definition M (W A : Type) : Type := W -> Outcome A * W.

Section Monad.

Context {W : Type}.

Definition ret {A : Type} (a : A) : M W A := fun w => (Returns a, w).

Definition throw {A : Type} (msg : string) : M W A := fun w => (Throws msg, w).

Definition bind {A B : Type} (m : M W A) (k : A -> M W B) : M W B :=
  fun w =>
    match m w with
    | (Returns a, w') => k a w'
    | (Throws msg, w') => (Throws msg, w')
    end.

(** [try { m } catch (error) { h error.message }]: what [m] did before it
    threw stays done. *)
Definition try_catch {A : Type} (m : M W A) (h : string -> M W A) : M W A :=
  fun w =>
    match m w with
    | (Returns a, w') => (Returns a, w')
    | (Throws msg, w') => h msg w'
    end.

(** [for (const x of xs) { r = await f(x); results.push(r) }] *)
Fixpoint for_of {A B : Type} (xs : list A) (f : A -> M W B) : M W (list B) :=
  match xs with
  | [] => ret []
  | x :: xs' =>
      bind (f x) (fun r => bind (for_of xs' f) (fun rs => ret (r :: rs)))
  end.

End Monad.

Declare Scope js_scope.
Delimit Scope js_scope with js.
Notation "x <- m ;; k" := (bind m (fun x => k))
  (at level 100, m at next level, right associativity) : js_scope.
Notation "m ;; k" := (bind m (fun _ => k))
  (at level 100, right associativity) : js_scope.

End Js.

(* ===================================================================== *)
(** ** Relational tables shared by the client and the edge function      *)
(* ===================================================================== *)

Module Tables.
Import Json.

(** A row of [fcm_tokens]. *)
Record TokenRow : Type := mkTokenRow {
  user_id : string;
  token : string;
  platform : string;
  device_info : JObject;
  is_active : bool;
  last_used_at : string
}.

Record DeliveryMetadata : Type := mkDeliveryMetadata {
  expo_message_id : option string;
  timestamp : string
}.

(** A row of [notification_deliveries]. *)
Record DeliveryRecord : Type := mkDeliveryRecord {
  delivery_user_id : string;
  notification_type : JValue;
  delivery_platform : string;
  status : string;
  error_message : option string;
  metadata : DeliveryMetadata
}.

End Tables.

(* ===================================================================== *)
(** ** The edge function [send-expo-notification]                        *)
(* ===================================================================== *)

Module Dispatch.
Import Json Tables Js.
Local Open Scope js_scope.

Inductive Priority : Type := PriorityDefault | PriorityNormal | PriorityHigh.

(** [sound?: 'default' | null]. *)
Inductive Sound : Type := SoundDefault | SoundNull.

(** Every priority is a non-empty string literal. *)
Definition truthy_priority (p : Priority) : bool := true.

Definition truthy_sound (s : Sound) : bool :=
  match s with
  | SoundDefault => true
  | SoundNull => false
  end.

Definition truthy_object (o : JObject) : bool := true.

(** [interface ExpoNotificationRequest]; an optional field that is absent is
    [None]. *)
Record ExpoNotificationRequest : Type := mkRequest {
  userId : option string;
  userIds : option (list string);
  topic : option string;
  title : string;
  body : string;
  data : option JObject;
  priority : option Priority;
  sound : option Sound;
  badge : option Z
}.

(** [interface ExpoMessage], as [sendExpoNotification] fills it. *)
Record ExpoMessage : Type := mkMessage {
  msg_to : list string;
  msg_title : string;
  msg_body : string;
  msg_data : JObject;
  msg_sound : Sound;
  msg_badge : option Z;
  msg_priority : Priority;
  msg_channelId : string
}.

(** A push ticket of the provider's reply. *)
Record Ticket : Type := mkTicket {
  ticket_status : string;
  ticket_id : option string;
  ticket_message : option string
}.

(** The object the three send functions return. *)
Record SendResult : Type := mkResult {
  success : bool;
  error : option string;
  messageId : option string;
  tickets : option (list Ticket)
}.

(** [{ success: false, error: msg }] *)
Definition failure (msg : string) : SendResult :=
  {| success := false; error := Some msg; messageId := None; tickets := None |}.

(** *** Network calls and the world they act on *)

Inductive NetCall : Type :=
| TokenQuery (user : option string)
| ProviderPost (message : ExpoMessage)
| DeliveryInsert (row : DeliveryRecord).

Record World : Type := mkWorld {
  fcm_tokens : list TokenRow;
  notification_deliveries : list DeliveryRecord;
  calls : list NetCall
}.

(** How the Token Store answers a [select]. *)
Inductive StoreMode : Type :=
| Serves
| ReturnsError
| ReturnsNoData
| Rejects (msg : string).

(** The parsed body of the provider's reply: [result.message] and
    [result.data] (a ticket array when present). *)
Inductive ReplyBody : Type :=
| NotJson (msg : string)
| Json (message : option string) (data : option (list Ticket)).

Inductive FetchOutcome : Type :=
| NetworkError (msg : string)
| Reply (ok : bool) (reply : ReplyBody).

(** How the Delivery Log answers an [insert]: the promise resolves either way,
    with [{ error: null }] and the row stored, or with [{ error }] and nothing
    stored.  (The builder throws only after [throwOnError()], which the code
    never calls.) *)
Inductive LogMode : Type :=
| Stores
| Refuses.

(** The collaborators.  Each answer is indexed by the number of network calls
    issued before the call it answers. *)
Record Env : Type := mkEnv {
  store : nat -> StoreMode;
  provider : nat -> FetchOutcome;
  deliveries_log : nat -> LogMode;
  now : nat -> string
}.

Definition M (A : Type) : Type := Js.M World A.

Definition issue (c : NetCall) (w : World) : World :=
  {| fcm_tokens := fcm_tokens w;
     notification_deliveries := notification_deliveries w;
     calls := calls w ++ [c] |}.

(** [.like('platform', 'expo-%').eq('is_active', true)], with
    [.eq('user_id', userId)] when a user is given. *)
Definition selected (user : option string) (row : TokenRow) : bool :=
  match user with
  | Some u => user_id row =? u
  | None => true
  end
  && prefix "expo-" (platform row)
  && is_active row.

(** [{ data, error }] of a token query. *)
Record QueryResult : Type := mkQuery {
  query_data : option (list TokenRow);
  query_error : bool
}.

Section WithEnv.

Variable env : Env.

(** [await supabase.from('fcm_tokens').select('*')...] *)
Definition select_tokens (user : option string) : M QueryResult :=
  fun w =>
    let w' := issue (TokenQuery user) w in
    match store env (length (calls w)) with
    | Serves =>
        (Returns {| query_data := Some (filter (selected user) (fcm_tokens w));
                    query_error := false |}, w')
    | ReturnsError =>
        (Returns {| query_data := None; query_error := true |}, w')
    | ReturnsNoData =>
        (Returns {| query_data := None; query_error := false |}, w')
    | Rejects msg => (Throws msg, w')
    end.

(** [await fetch('https://exp.host/--/api/v2/push/send', ...)] *)
Definition fetch (message : ExpoMessage) : M (bool * ReplyBody) :=
  fun w =>
    let w' := issue (ProviderPost message) w in
    match provider env (length (calls w)) with
    | NetworkError msg => (Throws msg, w')
    | Reply ok reply => (Returns (ok, reply), w')
    end.

(** [await response.json()] *)
Definition response_json (reply : ReplyBody)
  : M (option string * option (list Ticket)) :=
  match reply with
  | NotJson msg => throw msg
  | Json message data => ret (message, data)
  end.

(** [await supabase.from('notification_deliveries').insert(row)]: the request
    is issued; the row is appended to the log when the database stores it and
    the log is left as it was when the database refuses it.  The resolved
    [{ error }] is discarded by the caller either way. *)
Definition insert_delivery (row : DeliveryRecord) : M unit :=
  fun w =>
    (Returns tt,
     {| fcm_tokens := fcm_tokens w;
        notification_deliveries :=
          match deliveries_log env (length (calls w)) with
          | Stores => notification_deliveries w ++ [row]
          | Refuses => notification_deliveries w
          end;
        calls := calls w ++ [DeliveryInsert row] |}).

(** [new Date().toISOString()] *)
Definition clock : M string :=
  fun w => (Returns (now env (length (calls w))), w).

Definition is_error (t : Ticket) : bool := ticket_status t =? "error".
Definition is_ok (t : Ticket) : bool := ticket_status t =? "ok".

(** [result.data?.[0]?.id] *)
Definition first_ticket_id (data : option (list Ticket)) : option string :=
  match data with
  | Some (t :: _) => ticket_id t
  | _ => None
  end.

Definition build_message (tokens : list string)
    (expoRequest : ExpoNotificationRequest) : ExpoMessage :=
  {| msg_to := tokens;
     msg_title := title expoRequest;
     msg_body := body expoRequest;
     msg_data := js_or truthy_object (data expoRequest) [];
     msg_sound := js_or truthy_sound (sound expoRequest) SoundDefault;
     msg_priority := js_or truthy_priority (priority expoRequest) PriorityNormal;
     msg_channelId := "default";
     msg_badge := badge expoRequest |}.

Definition sendExpoNotification (tokens : list string)
    (expoRequest : ExpoNotificationRequest) : M SendResult :=
  try_catch
    (let message := build_message tokens expoRequest in
     response <- fetch message ;;
     result <- response_json (snd response) ;;
     let result_message := fst result in
     let result_data := snd result in
     if negb (fst response) then
       ret (failure (js_or truthy_string result_message "Unknown Expo error"))
     else
       let done :=
         {| success := true;
            error := None;
            messageId :=
              Some (js_or truthy_string (first_ticket_id result_data) "unknown");
            tickets := result_data |} in
       match result_data with
       | Some ticket_list =>
           let errors := filter is_error ticket_list in
           if (0 <? length errors)%nat then
             ret {| success := existsb is_ok ticket_list;
                    error := Some (string_of_nat (length errors)
                                     ++ " notifications failed")%string;
                    messageId := None;
                    tickets := Some ticket_list |}
           else ret done
       | None => ret done
       end)
    (fun msg => ret (failure msg)).

Definition sendToAllUsers (expoRequest : ExpoNotificationRequest)
  : M SendResult :=
  try_catch
    (q <- select_tokens None ;;
     if query_error q then ret (failure "Failed to fetch tokens")
     else
       match query_data q with
       | None => ret (failure "No active tokens found")
       | Some tokens =>
           if (length tokens =? 0)%nat then ret (failure "No active tokens found")
           else sendExpoNotification (map token tokens) expoRequest
       end)
    (fun msg => ret (failure msg)).

(** [expoRequest.data?.type || 'unknown'] *)
Definition delivery_type (expoRequest : ExpoNotificationRequest) : JValue :=
  js_or truthy
    (match data expoRequest with
     | Some o => lookup "type" o
     | None => None
     end)
    (JStr "unknown").

(** The row [sendToUser] inserts for [tokenRecord]. *)
Definition delivery_row (user : string) (expoRequest : ExpoNotificationRequest)
    (result : SendResult) (tokenRecord : TokenRow) (time : string)
  : DeliveryRecord :=
  {| delivery_user_id := user;
     notification_type := delivery_type expoRequest;
     delivery_platform := platform tokenRecord;
     status := if success result then "sent" else "failed";
     error_message := if success result then None else error result;
     metadata := {| expo_message_id := messageId result;
                    timestamp := time |} |}.

Definition sendToUser (user : string) (expoRequest : ExpoNotificationRequest)
  : M SendResult :=
  try_catch
    (q <- select_tokens (Some user) ;;
     if query_error q then ret (failure "Failed to fetch user tokens")
     else
       match query_data q with
       | None => ret (failure "No active tokens for user")
       | Some tokens =>
           if (length tokens =? 0)%nat then ret (failure "No active tokens for user")
           else
             result <- sendExpoNotification (map token tokens) expoRequest ;;
             for_of tokens
               (fun tokenRecord =>
                  time <- clock ;;
                  insert_delivery
                    (delivery_row user expoRequest result tokenRecord time)) ;;
             ret result
       end)
    (fun msg => ret (failure msg)).

(** *** The HTTP boundary *)

Record HttpRequest : Type := mkHttp {
  method : string;
  (** [await req.json()], read as an [ExpoNotificationRequest]; [Throws] when
      the body is not JSON, or is [null] so that reading its first property
      throws. *)
  json : Outcome ExpoNotificationRequest
}.

Inductive ResponseBody : Type :=
| NullBody
| Summary (ok : bool) (message : string) (results : list SendResult)
| Failure (ok : bool) (err : string).

Record HttpResponse : Type := mkResponse {
  http_status : nat;
  headers : list (string * string);
  response_body : ResponseBody
}.

Definition corsHeaders : list (string * string) :=
  [("Access-Control-Allow-Origin", "*");
   ("Access-Control-Allow-Headers",
    "authorization, x-client-info, apikey, content-type")].

Definition json_headers : list (string * string) :=
  corsHeaders ++ [("Content-Type", "application/json")].

Definition no_recipient : string :=
  "No valid recipient specified (userId, userIds, or topic)".

(** The [200] response built from [results]. *)
Definition summary (results : list SendResult) : HttpResponse :=
  let successCount := length (filter success results) in
  let failureCount := length (filter (fun r => negb (success r)) results) in
  {| http_status := 200;
     headers := json_headers;
     response_body :=
       Summary true
         ("Sent " ++ string_of_nat successCount ++ " notifications, "
            ++ string_of_nat failureCount ++ " failed")%string
         results |}.

(** The [500] response of the [catch] block. *)
Definition rejection (msg : string) : HttpResponse :=
  {| http_status := 500;
     headers := json_headers;
     response_body := Failure false msg |}.

Definition handler (req : HttpRequest) : M HttpResponse :=
  if method req =? "OPTIONS" then
    ret {| http_status := 200; headers := corsHeaders; response_body := NullBody |}
  else
    try_catch
      (expoRequest <- (fun w => (json req, w)) ;;
       results <-
         match when_truthy (topic expoRequest) with
         | Some _ =>
             result <- sendToAllUsers expoRequest ;;
             ret [result]
         | None =>
             match when_truthy (userId expoRequest) with
             | Some user =>
                 result <- sendToUser user expoRequest ;;
                 ret [result]
             | None =>
                 match userIds expoRequest with
                 | Some ids =>
                     if (0 <? length ids)%nat then
                       for_of ids (fun user => sendToUser user expoRequest)
                     else throw no_recipient
                 | None => throw no_recipient
                 end
             end
         end ;;
       ret (summary results))
      (fun msg => ret (rejection msg)).

End WithEnv.

End Dispatch.

(* ===================================================================== *)
(** ** The realtime trigger listener of [notificationService.ts]         *)
(* ===================================================================== *)

Module Listener.
Import Json.

(** [payload.new]: a row of the in-app [notifications] table. *)
Record Notification : Type := mkNotification {
  notification_id : string;
  notification_kind : string;          (* the row's [type] column *)
  notification_title : string;
  notification_message : string;
  notification_data : option JObject
}.

(** [supabase.functions.invoke(name, { body })] *)
Record Invocation : Type := mkInvocation {
  function_name : string;
  invocation_body : JObject
}.

Definition pushNotificationTypes : list string :=
  ["like"; "comment"; "comment_reply"; "follow"; "event_like";
   "event_comment"; "cleaning_reminder"; "event_reminder"].

(** [pushNotificationTypes.includes(t)] *)
Definition includes (types : list string) (t : string) : bool :=
  existsb (String.eqb t) types.

(** The body object literal of the invocation. *)
Definition push_body (user : string) (notification : Notification) : JObject :=
  [("user_id", JStr user);
   ("title", JStr (notification_title notification));
   ("body", JStr (notification_message notification));
   ("notification_type", JStr (notification_kind notification));
   ("data",
    JObj (obj_spread
            [("notification_id", JStr (notification_id notification));
             ("type", JStr (notification_kind notification))]
            (match notification_data notification with
             | Some o => o
             | None => []
             end)))].

(** The callback registered for INSERT events on [notifications]: the
    invocations it issues for one event. *)
Definition on_insert (user : string) (notification : Notification)
  : list Invocation :=
  if includes pushNotificationTypes (notification_kind notification) then
    [{| function_name := "send-expo-notification";
        invocation_body := push_body user notification |}]
  else [].

(** [setupNotificationListeners]: the callback it subscribes, when a user is
    signed in. *)
Definition setupNotificationListeners (user : option string)
  : option (Notification -> list Invocation) :=
  match user with
  | Some u => Some (on_insert u)
  | None => None
  end.

End Listener.

(* ===================================================================== *)
(** ** The request as the edge function reads it off the wire            *)
(* ===================================================================== *)

Module Wire.
Import Json Dispatch.

(** An optional field of the interface: absent, or of the declared type.
    The outer [None] is a value of another type. *)
Definition optional {A : Type} (read : JValue -> option A) (v : option JValue)
  : option (option A) :=
  match v with
  | None => Some None
  | Some x =>
      match read x with
      | Some a => Some (Some a)
      | None => None
      end
  end.

Definition as_string (v : JValue) : option string :=
  match v with
  | JStr s => Some s
  | _ => None
  end.

Fixpoint as_strings (items : list JValue) : option (list string) :=
  match items with
  | [] => Some []
  | x :: items' =>
      match as_string x, as_strings items' with
      | Some s, Some l => Some (s :: l)
      | _, _ => None
      end
  end.

Definition as_string_array (v : JValue) : option (list string) :=
  match v with
  | JArr items => as_strings items
  | _ => None
  end.

Definition as_object (v : JValue) : option JObject :=
  match v with
  | JObj fields => Some fields
  | _ => None
  end.

Definition as_priority (v : JValue) : option Priority :=
  match v with
  | JStr s =>
      if s =? "default" then Some PriorityDefault
      else if s =? "normal" then Some PriorityNormal
      else if s =? "high" then Some PriorityHigh
      else None
  | _ => None
  end.

Definition as_sound (v : JValue) : option Sound :=
  match v with
  | JNull => Some SoundNull
  | JStr s => if s =? "default" then Some SoundDefault else None
  | _ => None
  end.

Definition as_number (v : JValue) : option Z :=
  match v with
  | JNum n => Some n
  | _ => None
  end.

(** [const expoRequest: ExpoNotificationRequest = await req.json()] for a body
    that is a JSON object: each property the handler reads, by the name the
    interface gives it.  [None] when a property has a value outside its
    declared type. *)
Definition read_request (o : JObject) : option ExpoNotificationRequest :=
  match optional as_string (lookup "userId" o),
        optional as_string_array (lookup "userIds" o),
        optional as_string (lookup "topic" o),
        lookup "title" o, lookup "body" o,
        optional as_object (lookup "data" o),
        optional as_priority (lookup "priority" o),
        optional as_sound (lookup "sound" o),
        optional as_number (lookup "badge" o) with
  | Some u, Some us, Some t, Some (JStr ti), Some (JStr b),
    Some d, Some p, Some s, Some n =>
      Some {| userId := u; userIds := us; topic := t; title := ti; body := b;
              data := d; priority := p; sound := s; badge := n |}
  | _, _, _, _, _, _, _, _, _ => None
  end.

(** The POST the functions client issues for an invocation body. *)
Definition post (o : JObject) : option HttpRequest :=
  match read_request o with
  | Some r => Some {| method := "POST"; json := Js.Returns r |}
  | None => None
  end.

End Wire.

(* ===================================================================== *)
(** ** The device registration service [ExpoNotificationService]         *)
(* ===================================================================== *)

Module Registration.
Import Json Tables Js.
Local Open Scope js_scope.

Inductive PermissionStatus : Type := Granted | Denied | Undetermined.

Definition is_granted (s : PermissionStatus) : bool :=
  match s with
  | Granted => true
  | _ => false
  end.

(** Calls into the push SDK, the auth client and the Token Store. *)
Inductive SdkCall : Type :=
| GetPermissions
| RequestPermissions
| GetExpoPushToken (project : string)
| AuthGetUser
| Upsert (row : TokenRow)
| AddNotificationReceivedListener
| AddNotificationResponseReceivedListener.

(** The service instance ([isInitialized], [expoPushToken]) with what it acts
    on: the permission the OS holds, the [fcm_tokens] table and the calls
    issued so far. *)
Record Client : Type := mkClient {
  isInitialized : bool;
  expoPushToken : option string;
  permission : PermissionStatus;
  fcm_tokens : list TokenRow;
  sdk_calls : list SdkCall
}.

Inductive UpsertMode : Type :=
| Written
| UpsertError
| UpsertRejects (msg : string).

(** The device, the user in front of it and the backend: fixed for a
    session. *)
Record Env : Type := mkEnv {
  isDevice : bool;
  permissions_api_rejects : option string;
  prompt_answer : PermissionStatus;
  projectId : option string;
  push_token : Outcome string;
  signed_in : Outcome (option string);
  os : string;
  deviceName : option string;
  osVersion : option string;
  modelName : option string;
  upsert_mode : UpsertMode;
  now : nat -> string
}.

Definition M (A : Type) : Type := Js.M Client A.

Definition issue (c : SdkCall) (s : Client) : Client :=
  {| isInitialized := isInitialized s;
     expoPushToken := expoPushToken s;
     permission := permission s;
     fcm_tokens := fcm_tokens s;
     sdk_calls := sdk_calls s ++ [c] |}.

(** The conflict target ['user_id,platform,token']. *)
Definition same_key (a b : TokenRow) : bool :=
  (user_id a =? user_id b) && (platform a =? platform b)
  && (token a =? token b).

(** [INSERT ... ON CONFLICT (user_id, platform, token) DO UPDATE]. *)
Fixpoint upsert_row (r : TokenRow) (table : list TokenRow) : list TokenRow :=
  match table with
  | [] => [r]
  | x :: table' =>
      if same_key r x then r :: table' else x :: upsert_row r table'
  end.

(** [Device.deviceName] and the like: a string or [null]. *)
Definition nullable (x : option string) : JValue :=
  match x with
  | Some s => JStr s
  | None => JNull
  end.

Section WithEnv.

Variable env : Env.

(** [new Date().toISOString()] *)
Definition clock : M string :=
  fun s => (Returns (now env (length (sdk_calls s))), s).

(** [await Notifications.getPermissionsAsync()] *)
Definition getPermissionsAsync : M PermissionStatus :=
  fun s =>
    let s' := issue GetPermissions s in
    match permissions_api_rejects env with
    | Some msg => (Throws msg, s')
    | None => (Returns (permission s), s')
    end.

(** [await Notifications.requestPermissionsAsync()] *)
Definition requestPermissionsAsync : M PermissionStatus :=
  fun s =>
    (Returns (prompt_answer env),
     {| isInitialized := isInitialized s;
        expoPushToken := expoPushToken s;
        permission := prompt_answer env;
        fcm_tokens := fcm_tokens s;
        sdk_calls := sdk_calls s ++ [RequestPermissions] |}).

(** [await Notifications.getExpoPushTokenAsync({ projectId })]: [token.data] *)
Definition getExpoPushTokenAsync (project : string) : M string :=
  fun s => (push_token env, issue (GetExpoPushToken project) s).

(** [await supabase.auth.getUser()]: [user.id] when signed in. *)
Definition getUser : M (option string) :=
  fun s => (signed_in env, issue AuthGetUser s).

(** [await supabase.from('fcm_tokens').upsert(row, { onConflict })]: whether
    [error] is set. *)
Definition upsert (row : TokenRow) : M bool :=
  fun s =>
    let s' := issue (Upsert row) s in
    match upsert_mode env with
    | Written =>
        (Returns false,
         {| isInitialized := isInitialized s';
            expoPushToken := expoPushToken s';
            permission := permission s';
            fcm_tokens := upsert_row row (fcm_tokens s');
            sdk_calls := sdk_calls s' |})
    | UpsertError => (Returns true, s')
    | UpsertRejects msg => (Throws msg, s')
    end.

Definition addListener (c : SdkCall) : M unit :=
  fun s => (Returns tt, issue c s).

Definition requestPermissions : M bool :=
  try_catch
    (existingStatus <- getPermissionsAsync ;;
     finalStatus <-
       (if negb (is_granted existingStatus) then requestPermissionsAsync
        else ret existingStatus) ;;
     if negb (is_granted finalStatus) then ret false else ret true)
    (fun _ => ret false).

Definition getExpoPushToken : M (option string) :=
  try_catch
    (match when_truthy (projectId env) with
     | None => ret None
     | Some project =>
         token <- getExpoPushTokenAsync project ;;
         ret (Some token)
     end)
    (fun _ => ret None).

Definition saveTokenToDatabase (token userId : string) : M bool :=
  try_catch
    (time <- clock ;;
     let deviceInfo :=
       [("platform", JStr (os env));
        ("deviceName", nullable (deviceName env));
        ("osVersion", nullable (osVersion env));
        ("modelName", nullable (modelName env));
        ("timestamp", JStr time)] in
     used <- clock ;;
     err <- upsert {| user_id := userId;
                      token := token;
                      platform := ("expo-" ++ os env)%string;
                      device_info := deviceInfo;
                      is_active := true;
                      last_used_at := used |} ;;
     if err then ret false else ret true)
    (fun _ => ret false).

Definition setupNotificationListeners : M unit :=
  addListener AddNotificationReceivedListener ;;
  addListener AddNotificationResponseReceivedListener.

(** [this.expoPushToken = token; this.isInitialized = true;] *)
Definition remember (token : string) : M unit :=
  fun s =>
    (Returns tt,
     {| isInitialized := true;
        expoPushToken := Some token;
        permission := permission s;
        fcm_tokens := fcm_tokens s;
        sdk_calls := sdk_calls s |}).

Definition initialize : M bool :=
  fun s =>
    if isInitialized s then (Returns true, s)
    else
      try_catch
        (if negb (isDevice env) then ret false
         else
           hasPermission <- requestPermissions ;;
           if negb hasPermission then ret false
           else
             token <- getExpoPushToken ;;
             match when_truthy token with
             | None => ret false
             | Some token =>
                 remember token ;;
                 user <- getUser ;;
                 match user with
                 | Some id => saved <- saveTokenToDatabase token id ;; ret tt
                 | None => ret tt
                 end ;;
                 setupNotificationListeners ;;
                 ret true
             end)
        (fun _ => ret false)
        s.

Definition getToken (s : Client) : option string := expoPushToken s.

Definition isServiceInitialized (s : Client) : bool := isInitialized s.

End WithEnv.

End Registration.

(* ===================================================================== *)
(** ** Local reminders: [scheduleLocalNotification] and its callers      *)
(* ===================================================================== *)

Module Scheduling.
Import Js.
Local Open Scope js_scope.

(** A JavaScript [Date]: its time value in milliseconds since the epoch,
    [None] for an Invalid Date. *)
Definition JsDate : Type := option Z.

(** The largest time value a [Date] holds. *)
Definition max_time : Z := 8640000000000000.

(** [new Date(v)] for a number [v] ([None] is NaN): outside the range the
    date is invalid. *)
Definition new_Date (v : option Z) : JsDate :=
  match v with
  | Some t => if (Z.abs t <=? max_time)%Z then Some t else None
  | None => None
  end.

(** [d.getTime() - n]; the difference of two integers of this size is exact. *)
Definition getTime_minus (d : JsDate) (n : Z) : option Z :=
  match d with
  | Some t => Some (t - n)%Z
  | None => None
  end.

(** [a <= b] on two dates: false as soon as one of them is invalid. *)
Definition date_le (a b : JsDate) : bool :=
  match a, b with
  | Some x, Some y => (x <=? y)%Z
  | _, _ => false
  end.

(** The argument of [Notifications.scheduleNotificationAsync]. *)
Record LocalNotification : Type := mkLocal {
  content_title : string;
  content_body : string;
  content_sound : string;
  trigger_date : JsDate
}.

Inductive TrayCall : Type :=
| ScheduleNotification (n : LocalNotification)
| CancelAllScheduled.

(** What the push SDK holds: the scheduled notifications and the calls it
    received. *)
Record Tray : Type := mkTray {
  scheduled : list LocalNotification;
  tray_calls : list TrayCall
}.

Record Env : Type := mkEnv {
  schedule_rejects : LocalNotification -> option string;
  cancel_rejects : option string;
  (** the time value of [new Date()] *)
  current_time : Z
}.

(** [NotificationData] of [notificationService.ts]; [nextCleaningDue] is held
    as the date [new Date(nextCleaningDue)] makes of it. *)
Record NotificationData : Type := mkData {
  equipmentId : string;
  equipmentName : string;
  nextCleaningDue : JsDate
}.

Definition M (A : Type) : Type := Js.M Tray A.

Section WithEnv.

Variable env : Env.

(** [await Notifications.scheduleNotificationAsync(n)] *)
Definition scheduleNotificationAsync (n : LocalNotification) : M unit :=
  fun s =>
    match schedule_rejects env n with
    | Some msg =>
        (Throws msg,
         {| scheduled := scheduled s;
            tray_calls := tray_calls s ++ [ScheduleNotification n] |})
    | None =>
        (Returns tt,
         {| scheduled := scheduled s ++ [n];
            tray_calls := tray_calls s ++ [ScheduleNotification n] |})
    end.

(** [await Notifications.cancelAllScheduledNotificationsAsync()] *)
Definition cancelAllScheduledNotificationsAsync : M unit :=
  fun s =>
    match cancel_rejects env with
    | Some msg =>
        (Throws msg,
         {| scheduled := scheduled s;
            tray_calls := tray_calls s ++ [CancelAllScheduled] |})
    | None =>
        (Returns tt,
         {| scheduled := [];
            tray_calls := tray_calls s ++ [CancelAllScheduled] |})
    end.

(** [ExpoNotificationService.scheduleLocalNotification] *)
Definition scheduleLocalNotification (title body : string) (trigger : JsDate)
  : M unit :=
  try_catch
    (scheduleNotificationAsync
       {| content_title := title;
          content_body := body;
          content_sound := "default";
          trigger_date := trigger |})
    (fun _ => ret tt).

(** [ExpoNotificationService.cancelAllScheduledNotifications] *)
Definition cancelAllScheduledNotifications : M unit :=
  try_catch cancelAllScheduledNotificationsAsync (fun _ => ret tt).

(** [NotificationService.scheduleCleaningNotification] *)
Definition scheduleCleaningNotification (data : NotificationData) : M unit :=
  let dueDate := nextCleaningDue data in
  let notificationTime :=
    new_Date (getTime_minus dueDate (60 * 60 * 1000)) in
  if date_le notificationTime (Some (current_time env)) then ret tt
  else
    scheduleLocalNotification
      "Clean Beats Reminder"
      ("Time to clean your " ++ equipmentName data
         ++ "! Cleaning is due in 1 hour.")%string
      notificationTime.

(** [NotificationService.cancelNotification] *)
Definition cancelNotification (equipment : string) : M unit :=
  cancelAllScheduledNotifications.

(** [NotificationService.cancelAllNotifications] *)
Definition cancelAllNotifications : M unit :=
  cancelAllScheduledNotifications.

End WithEnv.

End Scheduling.

(* ===================================================================== *)
(** ** The app side: test pushes, [NotificationService], [useNotifications] *)
(* ===================================================================== *)

Module App.
Import Json Tables Js Listener.
Local Open Scope js_scope.

(** The object inserted into the in-app [notifications] table. *)
Record InAppRow : Type := mkInApp {
  row_user_id : string;
  row_type : string;
  row_title : string;
  row_message : string;
  row_data : JObject
}.

(** [toast({ title, description, variant })] *)
Record Toast : Type := mkToast {
  toast_title : string;
  toast_description : string;
  destructive : bool
}.

(** The service instance and its device, the invocations of edge functions,
    the rows inserted into [notifications], the hook's [hasPermission] state
    and the toasts shown. *)
Record World : Type := mkWorld {
  client : Registration.Client;
  invocations : list Invocation;
  notifications : list InAppRow;
  hasPermission : bool;
  toasts : list Toast
}.

(** What [supabase.functions.invoke] resolves to ([error] set or not), or
    that it rejects. *)
Inductive InvokeOutcome : Type :=
| Invoked (error : option string)
| InvokeRejects (msg : string).

Inductive InsertOutcome : Type :=
| Inserted
| InsertError
| InsertRejects (msg : string).

Record Env : Type := mkEnv {
  device : Registration.Env;
  (** the answer to the invocation issued after [n] earlier ones *)
  functions : nat -> InvokeOutcome;
  notifications_insert : InsertOutcome
}.

Definition M (A : Type) : Type := Js.M World A.

Definition with_client (c : Registration.Client) (a : World) : World :=
  {| client := c;
     invocations := invocations a;
     notifications := notifications a;
     hasPermission := hasPermission a;
     toasts := toasts a |}.

(** A method of [expoNotificationService] called from the app. *)
Definition service {A : Type} (m : Registration.M A) : M A :=
  fun a =>
    let (o, c) := m (client a) in
    (o, with_client c a).

(** [setHasPermission(b)] *)
Definition setHasPermission (b : bool) : M unit :=
  fun a =>
    (Returns tt,
     {| client := client a;
        invocations := invocations a;
        notifications := notifications a;
        hasPermission := b;
        toasts := toasts a |}).

(** [toast(t)] *)
Definition toast (t : Toast) : M unit :=
  fun a =>
    (Returns tt,
     {| client := client a;
        invocations := invocations a;
        notifications := notifications a;
        hasPermission := hasPermission a;
        toasts := toasts a ++ [t] |}).

(** [!!token] *)
Definition has_token (token : option string) : bool :=
  match when_truthy token with
  | Some _ => true
  | None => false
  end.

Section WithEnv.

Variable env : Env.

(** [await supabase.functions.invoke(name, { body })]: the [error] of the
    resolved value. *)
Definition invoke (name : string) (body : JObject) : M (option string) :=
  fun a =>
    let a' :=
      {| client := client a;
         invocations :=
           invocations a
           ++ [{| function_name := name; invocation_body := body |}];
         notifications := notifications a;
         hasPermission := hasPermission a;
         toasts := toasts a |} in
    match functions env (length (invocations a)) with
    | Invoked error => (Returns error, a')
    | InvokeRejects msg => (Throws msg, a')
    end.

(** [await supabase.from('notifications').insert(row)]: whether [error] is
    set. *)
Definition insert_notification (row : InAppRow) : M bool :=
  fun a =>
    match notifications_insert env with
    | Inserted =>
        (Returns false,
         {| client := client a;
            invocations := invocations a;
            notifications := notifications a ++ [row];
            hasPermission := hasPermission a;
            toasts := toasts a |})
    | InsertError => (Returns true, a)
    | InsertRejects msg => (Throws msg, a)
    end.

(** [new Date().toISOString()] *)
Definition clock : M string := service (Registration.clock (device env)).

(** [await supabase.auth.getUser()] *)
Definition getUser : M (option string) :=
  service (Registration.getUser (device env)).

(** *** [ExpoNotificationService.sendTestNotification] *)

Definition test_body (user time : string) : JObject :=
  [("userId", JStr user);
   ("title", JStr "Clean Beats Test 🎵");
   ("body", JStr "This is a test notification from Clean Beats!");
   ("data", JObj [("type", JStr "test"); ("timestamp", JStr time)])].

Definition sendTestNotification : M bool :=
  try_catch
    (user <- getUser ;;
     match user with
     | None => ret false
     | Some id =>
         time <- clock ;;
         error <- invoke "send-expo-notification" (test_body id time) ;;
         match error with
         | Some _ => ret false
         | None => ret true
         end
     end)
    (fun _ => ret false).

(** *** [NotificationService] of [notificationService.ts] *)

Definition initializePushNotifications : M unit :=
  try_catch
    (initialized <- service (Registration.initialize (device env)) ;;
     if negb initialized then throw "Failed to initialize Expo notifications"
     else ret tt)
    (fun _ => ret tt).

Definition test_row (user time : string) : InAppRow :=
  {| row_user_id := user;
     row_type := "test";
     row_title := "Test Notification";
     row_message :=
       "This is a test notification from Clean Beats! 🎵 Your notifications are working correctly.";
     row_data := [("test", JBool true); ("timestamp", JStr time)] |}.

Definition notification_sendTestNotification : M bool :=
  try_catch
    (user <- getUser ;;
     match user with
     | Some id =>
         time <- clock ;;
         dbError <- insert_notification (test_row id time) ;;
         ret tt
     | None => ret tt
     end)
    (fun _ => ret tt) ;;
  sendTestNotification.

(** The row of an INSERT event for an inserted object, with the id the
    database gave it. *)
Definition inserted_event (id : string) (row : InAppRow) : Notification :=
  {| notification_id := id;
     notification_kind := row_type row;
     notification_title := row_title row;
     notification_message := row_message row;
     notification_data := Some (row_data row) |}.

(** *** The hook [useNotifications] *)

Definition checkPermissions : M bool :=
  try_catch
    (initialized <- service (Registration.initialize (device env)) ;;
     if negb initialized then
       setHasPermission false ;;
       ret false
     else
       token <- service (fun c => (Returns (Registration.getToken c), c)) ;;
       let hasPerms := has_token token in
       setHasPermission hasPerms ;;
       ret hasPerms)
    (fun _ =>
       setHasPermission false ;;
       ret false).

Definition initializeNotifications : M unit :=
  try_catch
    (initialized <- service (Registration.initialize (device env)) ;;
     if initialized then
       hasPerms <- checkPermissions ;;
       setHasPermission hasPerms ;;
       if hasPerms then
         user <- getUser ;;
         match user with
         | Some id =>
             token <- service (fun c => (Returns (Registration.getToken c), c)) ;;
             match when_truthy token with
             | Some t =>
                 saved <- service
                            (Registration.saveTokenToDatabase (device env) t id) ;;
                 ret tt
             | None => ret tt
             end
         | None => ret tt
         end
       else ret tt
     else ret tt)
    (fun _ => ret tt).

Definition requestPermissions : M bool :=
  try_catch
    (initialized <- service (Registration.initialize (device env)) ;;
     if negb initialized then
       toast {| toast_title := "Error";
                toast_description := "Failed to initialize notification service";
                destructive := true |} ;;
       ret false
     else
       permissionGranted <-
         service (Registration.requestPermissions (device env)) ;;
       if negb permissionGranted then
         toast {| toast_title := "Notifications Disabled";
                  toast_description :=
                    "Enable notifications in settings to receive cleaning reminders";
                  destructive := true |} ;;
         setHasPermission false ;;
         ret false
       else
         token <- service (fun c => (Returns (Registration.getToken c), c)) ;;
         match when_truthy token with
         | None =>
             toast {| toast_title := "Error";
                      toast_description := "Failed to get notification token";
                      destructive := true |} ;;
             setHasPermission false ;;
             ret false
         | Some t =>
             let enabled :=
               setHasPermission true ;;
               toast {| toast_title := "Notifications Enabled";
                        toast_description :=
                          "You'll receive cleaning reminders and app updates";
                        destructive := false |} ;;
               ret true in
             user <- getUser ;;
             match user with
             | Some id =>
                 tokenSaved <-
                   service (Registration.saveTokenToDatabase (device env) t id) ;;
                 if negb tokenSaved then
                   toast {| toast_title := "Error";
                            toast_description :=
                              "Failed to register for notifications";
                            destructive := true |} ;;
                   ret false
                 else enabled
             | None => enabled
             end
         end)
    (fun _ =>
       toast {| toast_title := "Error";
                toast_description := "Failed to enable notifications";
                destructive := true |} ;;
       setHasPermission false ;;
       ret false).

Definition failed_to_send : Toast :=
  {| toast_title := "Error";
     toast_description := "Failed to send notification";
     destructive := true |}.

Definition showNotification (title body : string) (data : option JObject)
  : M unit :=
  hasPerms <- checkPermissions ;;
  if negb hasPerms then ret tt
  else
    try_catch
      (user <- getUser ;;
       match user with
       | None => ret tt
       | Some id =>
           error <- invoke "send-expo-notification"
                      [("userId", JStr id);
                       ("title", JStr title);
                       ("body", JStr body);
                       ("data",
                        JObj (obj_spread [("type", JStr "test")]
                                (match data with
                                 | Some o => o
                                 | None => []
                                 end)))] ;;
           match error with
           | Some _ => toast failed_to_send
           | None => ret tt
           end
       end)
      (fun _ => toast failed_to_send).

(** [sendTestNotification] of the hook: [getUser] is awaited outside any
    [try]. *)
Definition hook_sendTestNotification : M bool :=
  user <- getUser ;;
  match user with
  | None =>
      toast {| toast_title := "Error";
               toast_description := "Must be logged in to send test notification";
               destructive := true |} ;;
      ret false
  | Some _ => sendTestNotification
  end.

End WithEnv.

End App.

(* ===================================================================== *)
(** ** Vocabulary of the statements about the edge function              *)
(* ===================================================================== *)

Module DispatchSpec.
Import Json Tables Js Dispatch.

(** The reading [sendExpoNotification] makes of a provider reply. *)
Definition verdict (f : FetchOutcome) : SendResult :=
  match f with
  | NetworkError msg => failure msg
  | Reply _ (NotJson msg) => failure msg
  | Reply false (Json message _) =>
      failure (js_or truthy_string message "Unknown Expo error")
  | Reply true (Json _ reply_data) =>
      match reply_data with
      | Some ticket_list =>
          if existsb is_error ticket_list then
            {| success := existsb is_ok ticket_list;
               error := Some (string_of_nat (length (filter is_error ticket_list))
                                ++ " notifications failed")%string;
               messageId := None;
               tickets := Some ticket_list |}
          else
            {| success := true; error := None;
               messageId :=
                 Some (js_or truthy_string (first_ticket_id reply_data) "unknown");
               tickets := reply_data |}
      | None =>
          {| success := true; error := None;
             messageId := Some "unknown"; tickets := None |}
      end
  end.

(** The provider answered with a success status and a ticket list that has
    no error ticket or at least one ok ticket (also: no ticket list). *)
Definition accepted (f : FetchOutcome) : bool :=
  match f with
  | Reply true (Json _ (Some ticket_list)) =>
      negb (existsb is_error ticket_list) || existsb is_ok ticket_list
  | Reply true (Json _ None) => true
  | _ => false
  end.


(** The rows a token query issued in [w] hands to its caller. *)
Definition queried (env : Env) (w : World) (user : option string)
  : list TokenRow :=
  match store env (length (calls w)) with
  | Serves => filter (selected user) (fcm_tokens w)
  | _ => []
  end.

(** The world after the delivery-tracking loop of [sendToUser]. *)
Fixpoint tracked (env : Env) (row_of : TokenRow -> string -> DeliveryRecord)
    (rows : list TokenRow) (w : World) : World :=
  match rows with
  | [] => w
  | tokenRecord :: rows' =>
      let d := row_of tokenRecord (now env (length (calls w))) in
      tracked env row_of rows'
        {| fcm_tokens := fcm_tokens w;
           notification_deliveries :=
             match deliveries_log env (length (calls w)) with
             | Stores => notification_deliveries w ++ [d]
             | Refuses => notification_deliveries w
             end;
           calls := calls w ++ [DeliveryInsert d] |}
  end.

(** The users of the token queries among [cs], in order. *)
Fixpoint queries (cs : list NetCall) : list (option string) :=
  match cs with
  | [] => []
  | TokenQuery user :: cs' => user :: queries cs'
  | _ :: cs' => queries cs'
  end.

(** The messages posted to the provider among [cs], in order. *)
Fixpoint posts (cs : list NetCall) : list ExpoMessage :=
  match cs with
  | [] => []
  | ProviderPost m :: cs' => m :: posts cs'
  | _ :: cs' => posts cs'
  end.

(** How many provider posts among [cs] were accepted, when the first call of
    [cs] is call number [t]. *)
Fixpoint accepted_posts (env : Env) (t : nat) (cs : list NetCall) : nat :=
  match cs with
  | [] => 0
  | ProviderPost _ :: cs' =>
      (if accepted (provider env t) then 1 else 0) + accepted_posts env (S t) cs'
  | _ :: cs' => accepted_posts env (S t) cs'
  end.


(** [r] with its topic replaced. *)
Definition with_topic (t : option string) (r : ExpoNotificationRequest)
  : ExpoNotificationRequest :=
  {| userId := userId r; userIds := userIds r; topic := t;
     title := title r; body := body r; data := data r;
     priority := priority r; sound := sound r; badge := badge r |}.

(** Some recipient shape is present and usable: a non-empty topic, a
    non-empty userId, or a non-empty userIds list. *)
Definition has_recipient (r : ExpoNotificationRequest) : bool :=
  match when_truthy (topic r), when_truthy (userId r), userIds r with
  | Some _, _, _ => true
  | None, Some _, _ => true
  | None, None, Some (_ :: _) => true
  | None, None, _ => false
  end.

(** [r] with [topic], [userId] and [userIds] replaced. *)
Definition with_recipient (t u : option string) (us : option (list string))
    (r : ExpoNotificationRequest) : ExpoNotificationRequest :=
  {| userId := u; userIds := us; topic := t;
     title := title r; body := body r; data := data r;
     priority := priority r; sound := sound r; badge := badge r |}.

(** [r] reduced to the one recipient shape the handler acts on: the topic
    before the userId before the userIds list. *)
Definition chosen (r : ExpoNotificationRequest) : ExpoNotificationRequest :=
  match when_truthy (topic r), when_truthy (userId r), userIds r with
  | Some t, _, _ => with_recipient (Some t) None None r
  | None, Some u, _ => with_recipient None (Some u) None r
  | None, None, Some (u :: us) => with_recipient None None (Some (u :: us)) r
  | None, None, _ => with_recipient None None None r
  end.


(** An optional field is not [undefined]. *)
Definition is_set {A : Type} (x : option A) : bool :=
  match x with
  | Some _ => true
  | None => false
  end.

(** How many of the three recipient fields are set. *)
Definition shapes (r : ExpoNotificationRequest) : nat :=
  (if is_set (topic r) then 1 else 0) + (if is_set (userId r) then 1 else 0)
  + (if is_set (userIds r) then 1 else 0).

(** The response to an OPTIONS preflight. *)
Definition preflight : HttpResponse :=
  {| http_status := 200; headers := corsHeaders; response_body := NullBody |}.

(** A POST carrying [r]. *)
Definition post (r : ExpoNotificationRequest) : HttpRequest :=
  {| method := "POST"; json := Returns r |}.

(** The rows of the Delivery Log inserts issued among [cs], in order. *)
Fixpoint inserts (cs : list NetCall) : list DeliveryRecord :=
  match cs with
  | [] => []
  | DeliveryInsert d :: cs' => d :: inserts cs'
  | _ :: cs' => inserts cs'
  end.

(** The rows of the inserts among [cs] that the Delivery Log stored, when
    the first call of [cs] is call number [t]. *)
Fixpoint stored_rows (env : Env) (t : nat) (cs : list NetCall)
  : list DeliveryRecord :=
  match cs with
  | [] => []
  | DeliveryInsert d :: cs' =>
      match deliveries_log env t with
      | Stores => d :: stored_rows env (S t) cs'
      | Refuses => stored_rows env (S t) cs'
      end
  | _ :: cs' => stored_rows env (S t) cs'
  end.

(** The token rows queried for the recipients [ids], recipient after
    recipient from the world [w] on: each row with the user it was queried
    for and the result of that user's batch, which is the verdict on the
    provider's reply to the post that follows the user's query. *)
Fixpoint batches (env : Env) (r : ExpoNotificationRequest) (ids : list string)
    (w : World) : list (string * SendResult * TokenRow) :=
  match ids with
  | [] => []
  | user :: ids' =>
      map (fun tokenRecord =>
             (user, verdict (provider env (S (length (calls w)))), tokenRecord))
          (queried env w (Some user))
      ++ batches env r ids' (snd (sendToUser env user r w))
  end.

(** [d] is the record written for a token row of a batch: the user and the
    row's platform, the request's type, and status, error message and
    message id of the batch as a whole. *)
Definition logged_for (r : ExpoNotificationRequest)
    (b : string * SendResult * TokenRow) (d : DeliveryRecord) : Prop :=
  let '(user, result, tokenRecord) := b in
  delivery_user_id d = user
  /\ delivery_platform d = platform tokenRecord
  /\ notification_type d = delivery_type r
  /\ status d = (if success result then "sent" else "failed")
  /\ error_message d = (if success result then None else error result)
  /\ expo_message_id (metadata d) = messageId result.

(** The users the handler sends to one by one: the userId when it is a
    non-empty string, else the userIds list. *)
Definition addressed (r : ExpoNotificationRequest) : list string :=
  match when_truthy (userId r), userIds r with
  | Some user, _ => [user]
  | None, Some ids => ids
  | None, None => []
  end.

End DispatchSpec.

(* ===================================================================== *)
(** ** Vocabulary of the statements about the registration service       *)
(* ===================================================================== *)

Module RegistrationSpec.
Import Json Tables Registration.

(** The conflict target of the upsert, as a value. *)
Definition key (row : TokenRow) : string * string * string :=
  (user_id row, platform row, token row).

(** No two rows of the table share (user, platform, token). *)
Definition keys_unique (table : list TokenRow) : Prop :=
  NoDup (map key table).

(** The calls [cs] without the permission prompt. *)
Definition without_prompt (cs : list SdkCall) : list SdkCall :=
  filter (fun c => match c with
                   | RequestPermissions => false
                   | _ => true
                   end) cs.

(** Case analysis on the next variable a run branches on. *)
Ltac expose_case :=
  match goal with
  | |- context [match ?x with _ => _ end] => is_var x; destruct x
  | |- context [if ?x then _ else _] => is_var x; destruct x
  | |- context [negb ?x] => is_var x; destruct x
  | |- context [is_granted ?x] => is_var x; destruct x
  | |- context [when_truthy ?x] => is_var x; destruct x
  | |- context [truthy_string ?x] => is_var x; destruct x
  end.

End RegistrationSpec.

(* ===================================================================== *)
(** ** Sample inputs                                                     *)
(* ===================================================================== *)

Module Sample.
Import Json Tables Js Dispatch.

Definition row (user tok plat : string) (active : bool) : TokenRow :=
  {| user_id := user; token := tok; platform := plat; device_info := [];
     is_active := active; last_used_at := "2024-01-01T00:00:00.000Z" |}.

Definition store_rows : list TokenRow :=
  [row "u1" "ExponentPushToken[a]" "expo-ios" true;
   row "u1" "ExponentPushToken[b]" "expo-android" true;
   row "u2" "ExponentPushToken[c]" "expo-ios" true;
   row "u2" "fcm-d" "android" true;
   row "u3" "ExponentPushToken[e]" "expo-ios" false].

Definition world : World :=
  {| fcm_tokens := store_rows; notification_deliveries := []; calls := [] |}.

Definition empty_world : World :=
  {| fcm_tokens := []; notification_deliveries := []; calls := [] |}.

Definition ok_ticket (i : string) : Ticket :=
  {| ticket_status := "ok"; ticket_id := Some i; ticket_message := None |}.

Definition error_ticket (m : string) : Ticket :=
  {| ticket_status := "error"; ticket_id := None; ticket_message := Some m |}.

(** A provider that answers every post with [reply], over a healthy store. *)
Definition env_with (reply : FetchOutcome) : Env :=
  {| store := fun _ => Serves;
     provider := fun _ => reply;
     deliveries_log := fun _ => Stores;
     now := fun _ => "2024-01-02T00:00:00.000Z" |}.

Definition all_ok : Env :=
  env_with (Reply true (Json None (Some [ok_ticket "t1"; ok_ticket "t2"]))).

Definition mixed : Env :=
  env_with (Reply true (Json None (Some [ok_ticket "t1"; error_ticket "DeviceNotRegistered"]))).


(** The store fails on the query numbered [t]. *)
Definition store_down_at (t : nat) : Env :=
  {| store := fun n => if (n =? t)%nat then ReturnsError else Serves;
     provider := provider all_ok;
     deliveries_log := deliveries_log all_ok;
     now := now all_ok |}.

(** The Delivery Log refuses the insert numbered [t]. *)
Definition log_down_at (t : nat) : Env :=
  {| store := store all_ok;
     provider := provider all_ok;
     deliveries_log := fun n => if (n =? t)%nat then Refuses else Stores;
     now := now all_ok |}.

Definition request : ExpoNotificationRequest :=
  {| userId := None; userIds := None; topic := None;
     title := "T"; body := "B"; data := None;
     priority := None; sound := None; badge := None |}.

Definition to_user (u : string) : ExpoNotificationRequest :=
  {| userId := Some u; userIds := None; topic := None;
     title := "T"; body := "B"; data := None;
     priority := None; sound := Some SoundNull; badge := None |}.

Definition to_users (us : list string) : ExpoNotificationRequest :=
  {| userId := None; userIds := Some us; topic := None;
     title := "T"; body := "B"; data := None;
     priority := None; sound := None; badge := None |}.

Definition to_topic_and_user (t u : string) : ExpoNotificationRequest :=
  {| userId := Some u; userIds := None; topic := Some t;
     title := "T"; body := "B"; data := None;
     priority := None; sound := None; badge := None |}.

Definition to_topic (t : string) : ExpoNotificationRequest :=
  {| userId := None; userIds := None; topic := Some t;
     title := "T"; body := "B"; data := None;
     priority := None; sound := None; badge := None |}.

(** An allow-listed event and one that is not. *)
Definition like_event : Listener.Notification :=
  {| Listener.notification_id := "n1";
     Listener.notification_kind := "like";
     Listener.notification_title := "New like";
     Listener.notification_message := "Someone liked your post";
     Listener.notification_data := Some [("postId", JStr "p1")] |}.

Definition test_event : Listener.Notification :=
  {| Listener.notification_id := "n2";
     Listener.notification_kind := "test";
     Listener.notification_title := "Test Notification";
     Listener.notification_message := "This is a test";
     Listener.notification_data := None |}.

(** A phone on which everything works, with a signed-in user. *)
Definition phone : Registration.Env :=
  {| Registration.isDevice := true;
     Registration.permissions_api_rejects := None;
     Registration.prompt_answer := Registration.Granted;
     Registration.projectId := Some "project-1";
     Registration.push_token := Returns "ExponentPushToken[a]";
     Registration.signed_in := Returns (Some "u1");
     Registration.os := "ios";
     Registration.deviceName := Some "iPhone";
     Registration.osVersion := Some "17.0";
     Registration.modelName := None;
     Registration.upsert_mode := Registration.Written;
     Registration.now := fun _ => "2024-01-02T00:00:00.000Z" |}.

(** The same phone with a user who refuses the permission. *)
Definition refusing : Registration.Env :=
  {| Registration.isDevice := true;
     Registration.permissions_api_rejects := None;
     Registration.prompt_answer := Registration.Denied;
     Registration.projectId := Some "project-1";
     Registration.push_token := Returns "ExponentPushToken[a]";
     Registration.signed_in := Returns (Some "u1");
     Registration.os := "ios";
     Registration.deviceName := Some "iPhone";
     Registration.osVersion := Some "17.0";
     Registration.modelName := None;
     Registration.upsert_mode := Registration.Written;
     Registration.now := fun _ => "2024-01-02T00:00:00.000Z" |}.

(** A fresh service on a phone whose Token Store already holds [store_rows]. *)
Definition fresh : Registration.Client :=
  {| Registration.isInitialized := false;
     Registration.expoPushToken := None;
     Registration.permission := Registration.Undetermined;
     Registration.fcm_tokens := store_rows;
     Registration.sdk_calls := [] |}.

End Sample.

(* ===================================================================== *)
(** ** Vocabulary and samples for the further facts                      *)
(* ===================================================================== *)

Module MoreSpec.
Import Json Tables Js.

(** The service holds a non-empty token whenever it says it is initialised. *)
Definition consistent (s : Registration.Client) : Prop :=
  Registration.isInitialized s = true ->
  exists t, Registration.expoPushToken s = Some t /\ t <> "".

(** The call adds the foreground listener ([received]) or the tap
    listener. *)
Definition is_listener (received : bool) (c : Registration.SdkCall) : bool :=
  match c, received with
  | Registration.AddNotificationReceivedListener, true => true
  | Registration.AddNotificationResponseReceivedListener, false => true
  | _, _ => false
  end.

Definition is_prompt (c : Registration.SdkCall) : bool :=
  match c with
  | Registration.RequestPermissions => true
  | _ => false
  end.

(** The service after one call of [initialize] per element of [envs], each
    under its own device, user and backend, and each awaited before the next
    is made, as in the hook's [initializeNotifications], which awaits
    [initialize()] and then [checkPermissions()], which awaits
    [initialize()] again.  Calls that overlap (a second one made while the
    first is suspended at an [await], before it has set [isInitialized]) are
    not runs of this function. *)
Definition initialize_in_turn (envs : list Registration.Env)
    (s : Registration.Client) : Registration.Client :=
  fold_left (fun c e => snd (Registration.initialize e c)) envs s.

(** The edge function's world over the Token Store the client wrote to. *)
Definition server_world (s : Registration.Client) : Dispatch.World :=
  {| Dispatch.fcm_tokens := Registration.fcm_tokens s;
     Dispatch.notification_deliveries := [];
     Dispatch.calls := [] |}.

(** A phone whose auth lookup rejects. *)
Definition auth_down : Registration.Env :=
  {| Registration.isDevice := true;
     Registration.permissions_api_rejects := None;
     Registration.prompt_answer := Registration.Granted;
     Registration.projectId := Some "project-1";
     Registration.push_token := Returns "ExponentPushToken[a]";
     Registration.signed_in := Throws "network request failed";
     Registration.os := "ios";
     Registration.deviceName := Some "iPhone";
     Registration.osVersion := Some "17.0";
     Registration.modelName := None;
     Registration.upsert_mode := Registration.Written;
     Registration.now := fun _ => "2024-01-02T00:00:00.000Z" |}.

(** A service on a phone whose Token Store is empty. *)
Definition unregistered : Registration.Client :=
  {| Registration.isInitialized := false;
     Registration.expoPushToken := None;
     Registration.permission := Registration.Undetermined;
     Registration.fcm_tokens := [];
     Registration.sdk_calls := [] |}.

Definition tray_env (now : Z) : Scheduling.Env :=
  {| Scheduling.schedule_rejects := fun _ => None;
     Scheduling.cancel_rejects := None;
     Scheduling.current_time := now |}.

Definition empty_tray : Scheduling.Tray :=
  {| Scheduling.scheduled := []; Scheduling.tray_calls := [] |}.

Definition mop (due : Scheduling.JsDate) : Scheduling.NotificationData :=
  {| Scheduling.equipmentId := "e1";
     Scheduling.equipmentName := "mop";
     Scheduling.nextCleaningDue := due |}.

Definition app_env (d : Registration.Env) (answer : App.InvokeOutcome)
  : App.Env :=
  {| App.device := d;
     App.functions := fun _ => answer;
     App.notifications_insert := App.Inserted |}.

Definition app_world (c : Registration.Client) : App.World :=
  {| App.client := c;
     App.invocations := [];
     App.notifications := [];
     App.hasPermission := false;
     App.toasts := [] |}.

End MoreSpec.

(* ===================================================================== *)
(** ** The edge function: how each send function runs                    *)
(* ===================================================================== *)

Section DispatchRuns.
Import Json Tables Js Dispatch DispatchSpec.
Local Open Scope js_scope.

Example handler_single_user_all_ok :
  fst (handler Sample.all_ok (post (Sample.to_user "u1")) Sample.world)
  = Returns (summary
      [{| success := true; error := None; messageId := Some "t1";
          tickets := Some [Sample.ok_ticket "t1"; Sample.ok_ticket "t2"] |}]).
Proof. reflexivity. Qed.

Example handler_single_user_calls :
  posts (calls (snd (handler Sample.all_ok (post (Sample.to_user "u1")) Sample.world)))
  = [build_message ["ExponentPushToken[a]"; "ExponentPushToken[b]"] (Sample.to_user "u1")]
  /\ map status (notification_deliveries
       (snd (handler Sample.all_ok (post (Sample.to_user "u1")) Sample.world)))
     = ["sent"; "sent"].
Proof. split; reflexivity. Qed.

Example handler_three_users :
  exists results,
    fst (handler Sample.all_ok
           (post (Sample.to_users ["u1"; "nobody"; "u2"])) Sample.world)
    = Returns {| http_status := 200;
                 headers := json_headers;
                 response_body :=
                   Summary true "Sent 2 notifications, 1 failed" results |}
    /\ map success results = [true; false; true].
Proof. eexists. split; reflexivity. Qed.

Lemma some_filtered {A : Type} (f : A -> bool) (l : list A) :
  (0 <? length (filter f l))%nat = existsb f l.
Proof.
  induction l as [|x l IH]; simpl; [reflexivity|].
  destruct (f x); simpl; [reflexivity | exact IH].
Qed.

Lemma length_issue (c : NetCall) (w : World) :
  length (calls (issue c w)) = S (length (calls w)).
Proof. unfold issue; simpl. rewrite length_app; simpl; lia. Qed.

(** [sendExpoNotification] posts once and never throws. *)
Lemma sendExpoNotification_run env tokens r w :
  sendExpoNotification env tokens r w
  = (Returns (verdict (provider env (length (calls w)))),
     issue (ProviderPost (build_message tokens r)) w).
Proof.
  unfold sendExpoNotification, try_catch, bind, fetch, response_json.
  destruct (provider env (length (calls w))) as [msg | [|] [msg | m [ts|]]];
    simpl; try reflexivity.
  unfold ret. rewrite some_filtered.
  destruct (existsb is_error ts); reflexivity.
Qed.

(** The delivery-tracking loop inserts one row per token record. *)
Lemma tracking_run env (row_of : TokenRow -> string -> DeliveryRecord) rows w :
  for_of rows (fun tokenRecord =>
                 time <- clock env ;;
                 insert_delivery env (row_of tokenRecord time)) w
  = (Returns (map (fun _ => tt) rows), tracked env row_of rows w).
Proof.
  revert w; induction rows as [|x rows IH]; intro w; simpl; [reflexivity|].
  unfold bind at 1 2. unfold clock at 1, insert_delivery at 1; simpl.
  unfold bind at 1. rewrite IH. reflexivity.
Qed.

(** A query that hands over no rows ends [sendToUser] after that one call. *)
Lemma sendToUser_no_rows env user r w :
  queried env w (Some user) = [] ->
  exists msg,
    sendToUser env user r w
    = (Returns (failure msg), issue (TokenQuery (Some user)) w).
Proof.
  unfold queried, sendToUser, try_catch, bind, select_tokens.
  destruct (store env (length (calls w))) as [| | |msg]; simpl; intro H.
  - rewrite H; simpl. eexists; reflexivity.
  - eexists; reflexivity.
  - eexists; reflexivity.
  - eexists; reflexivity.
Qed.

(** With rows in hand, [sendToUser] posts once and tracks every row. *)
Lemma sendToUser_rows env user r w :
  queried env w (Some user) <> [] ->
  let w1 := issue (TokenQuery (Some user)) w in
  let result := verdict (provider env (length (calls w1))) in
  sendToUser env user r w
  = (Returns result,
     tracked env (delivery_row user r result) (queried env w (Some user))
       (issue (ProviderPost
                 (build_message (map token (queried env w (Some user))) r)) w1)).
Proof.
  unfold queried, sendToUser, try_catch, bind, select_tokens.
  destruct (store env (length (calls w))) as [| | |msg]; simpl; intro H;
    try congruence.
  destruct (filter (selected (Some user)) (fcm_tokens w)) as [|x rows] eqn:E;
    [congruence|].
  cbn [length Nat.eqb].
  rewrite sendExpoNotification_run.
  change (for_of (x :: rows) _) with
    (for_of (x :: rows)
       (fun tokenRecord =>
          time <- clock env ;;
          insert_delivery env
            (delivery_row user r
               (verdict (provider env
                  (length (calls (issue (TokenQuery (Some user)) w)))))
               tokenRecord time))).
  rewrite tracking_run. reflexivity.
Qed.

Lemma sendToAllUsers_no_rows env r w :
  queried env w None = [] ->
  exists msg,
    sendToAllUsers env r w = (Returns (failure msg), issue (TokenQuery None) w)
    /\ (store env (length (calls w)) = Serves -> msg = "No active tokens found").
Proof.
  unfold queried, sendToAllUsers, try_catch, bind, select_tokens.
  destruct (store env (length (calls w))) as [| | |msg]; simpl; intro H.
  - rewrite H; simpl. eexists; split; reflexivity.
  - eexists; split; [reflexivity | discriminate].
  - eexists; split; [reflexivity | discriminate].
  - eexists; split; [reflexivity | discriminate].
Qed.

Lemma sendToAllUsers_rows env r w :
  queried env w None <> [] ->
  let w1 := issue (TokenQuery None) w in
  sendToAllUsers env r w
  = (Returns (verdict (provider env (length (calls w1)))),
     issue (ProviderPost (build_message (map token (queried env w None)) r)) w1).
Proof.
  unfold queried, sendToAllUsers, try_catch, bind, select_tokens.
  destruct (store env (length (calls w))) as [| | |msg]; simpl; intro H;
    try congruence.
  destruct (filter (selected None) (fcm_tokens w)) as [|x rows] eqn:E;
    [congruence|].
  cbn [length Nat.eqb].
  rewrite sendExpoNotification_run. reflexivity.
Qed.

Lemma success_verdict (f : FetchOutcome) : success (verdict f) = accepted f.
Proof.
  destruct f as [msg | [|] [msg | m [ts|]]]; simpl; try reflexivity.
  destruct (existsb is_error ts); reflexivity.
Qed.

(** *** Reading the log of calls *)

Lemma queries_app a b : queries (a ++ b) = queries a ++ queries b.
Proof.
  induction a as [|[u|m|d] a IH]; simpl; rewrite ?IH; reflexivity.
Qed.

Lemma posts_app a b : posts (a ++ b) = posts a ++ posts b.
Proof.
  induction a as [|[u|m|d] a IH]; simpl; rewrite ?IH; reflexivity.
Qed.

Lemma queries_inserts ds : queries (map DeliveryInsert ds) = [].
Proof. induction ds; simpl; auto. Qed.

Lemma posts_inserts ds : posts (map DeliveryInsert ds) = [].
Proof. induction ds; simpl; auto. Qed.

Lemma accepted_posts_app env a b t :
  accepted_posts env t (a ++ b)
  = accepted_posts env t a + accepted_posts env (t + length a) b.
Proof.
  revert t; induction a as [|[u|m|d] a IH]; intro t; simpl;
    rewrite ?IH, ?Nat.add_0_r, ?Nat.add_succ_r; simpl; try reflexivity.
  lia.
Qed.

Lemma accepted_posts_inserts env t ds :
  accepted_posts env t (map DeliveryInsert ds) = 0.
Proof. revert t; induction ds; intro t; simpl; auto. Qed.

Lemma inserts_app a b : inserts (a ++ b) = inserts a ++ inserts b.
Proof.
  induction a as [|[u|m|d] a IH]; simpl; rewrite ?IH; reflexivity.
Qed.

Lemma inserts_map ds : inserts (map DeliveryInsert ds) = ds.
Proof. induction ds; simpl; congruence. Qed.

Lemma stored_rows_app env a b t :
  stored_rows env t (a ++ b)
  = stored_rows env t a ++ stored_rows env (t + length a) b.
Proof.
  revert t; induction a as [|[u|m|d] a IH]; intro t; simpl;
    rewrite ?IH, ?Nat.add_0_r, ?Nat.add_succ_r; simpl; try reflexivity.
  destruct (deliveries_log env t); reflexivity.
Qed.

(** A log that never refuses stores every row it is sent. *)
Lemma stored_rows_all env t cs :
  (forall n, deliveries_log env n = Stores) ->
  stored_rows env t cs = inserts cs.
Proof.
  intro H. revert t; induction cs as [|[u|m|d] cs IH]; intro t; simpl;
    rewrite ?H, ?IH; reflexivity.
Qed.

(** *** What the tracking loop leaves behind *)

(** One insert is issued per token record, in order; the log gains the rows
    of the inserts it stored. *)
Lemma tracked_spec env row_of rows w :
  exists ds,
    Forall2 (fun tokenRecord d => exists time, d = row_of tokenRecord time) rows ds
    /\ notification_deliveries (tracked env row_of rows w)
       = notification_deliveries w
         ++ stored_rows env (length (calls w)) (map DeliveryInsert ds)
    /\ calls (tracked env row_of rows w) = calls w ++ map DeliveryInsert ds
    /\ fcm_tokens (tracked env row_of rows w) = fcm_tokens w.
Proof.
  revert w; induction rows as [|x rows IH]; intro w; simpl.
  - exists []. simpl. rewrite !app_nil_r. repeat split; constructor.
  - match goal with |- context [tracked env row_of rows ?w1] =>
      destruct (IH w1) as (ds & HF & Hd & Hc & Ht) end.
    cbn [notification_deliveries calls fcm_tokens] in Hd, Hc, Ht.
    rewrite length_app, Nat.add_1_r in Hd.
    exists (row_of x (now env (length (calls w))) :: ds).
    rewrite Hd, Hc, Ht, <- !app_assoc. cbn [map stored_rows app].
    split; [constructor; [eexists; reflexivity | exact HF]|].
    split; [|split; reflexivity].
    destruct (deliveries_log env (length (calls w)));
      [rewrite <- app_assoc|]; reflexivity.
Qed.

(** *** One recipient *)

Lemma sendToUser_effects env user r w :
  exists result ds w',
    sendToUser env user r w = (Returns result, w')
    /\ fcm_tokens w' = fcm_tokens w
    /\ notification_deliveries w'
       = notification_deliveries w
         ++ stored_rows env (S (S (length (calls w)))) (map DeliveryInsert ds)
    /\ Forall2 (fun tokenRecord d =>
                  exists time, d = delivery_row user r result tokenRecord time)
         (queried env w (Some user)) ds
    /\ ((queried env w (Some user) = []
         /\ success result = false
         /\ calls w' = calls w ++ [TokenQuery (Some user)])
        \/
        (queried env w (Some user) <> []
         /\ result = verdict (provider env (S (length (calls w))))
         /\ calls w'
            = calls w
              ++ TokenQuery (Some user)
              :: ProviderPost
                   (build_message (map token (queried env w (Some user))) r)
              :: map DeliveryInsert ds)).
Proof.
  destruct (queried env w (Some user)) as [|x rows] eqn:E.
  - destruct (sendToUser_no_rows env user r w E) as (msg & H).
    exists (failure msg), [], (issue (TokenQuery (Some user)) w).
    rewrite H; simpl. rewrite app_nil_r.
    do 3 (split; [reflexivity|]). split; [constructor|].
    left. repeat split; reflexivity.
  - assert (N : queried env w (Some user) <> []) by (rewrite E; discriminate).
    pose proof (sendToUser_rows env user r w N) as H. cbv zeta in H.
    rewrite length_issue, E in H.
    match type of H with _ = (_, tracked _ ?f ?rs ?w1) =>
      destruct (tracked_spec env f rs w1) as (ds & HF & Hd & Hc & Ht) end.
    rewrite !length_issue in Hd.
    eexists _, ds, _. split; [exact H|].
    rewrite Hd, Hc, Ht. unfold issue; simpl. rewrite <- !app_assoc. simpl.
    do 2 (split; [reflexivity|]). split; [exact HF|].
    right. split; [discriminate|]. split; reflexivity.
Qed.

(** The provider posts among the calls one recipient adds, and how many of
    them were accepted. *)
Lemma sendToUser_calls env user r w :
  exists result new ds w',
    sendToUser env user r w = (Returns result, w')
    /\ fcm_tokens w' = fcm_tokens w
    /\ notification_deliveries w' = notification_deliveries w ++ ds
    /\ calls w' = calls w ++ new
    /\ queries new = [Some user]
    /\ accepted_posts env (length (calls w)) new
       = (if success result then 1 else 0)
    /\ Forall (fun m => exists tokens, m = build_message tokens r) (posts new).
Proof.
  destruct (sendToUser_effects env user r w)
    as (result & ds & w' & H & Ht & Hd & _ & [(_ & Hs & Hc) | (_ & Hr & Hc)]).
  - eexists result, [TokenQuery (Some user)], _, w'.
    rewrite Hs. simpl. repeat split; eauto.
  - eexists result, _, _, w'.
    do 3 (split; [eassumption|]). split; [exact Hc|].
    simpl. rewrite queries_inserts, posts_inserts, accepted_posts_inserts.
    rewrite Hr, success_verdict.
    repeat split; auto.
    constructor; [eexists; reflexivity | constructor].
Qed.

(** *** A list of recipients *)

Lemma users_effects env r ids w :
  exists results new ds w',
    for_of ids (fun user => sendToUser env user r) w = (Returns results, w')
    /\ length results = length ids
    /\ fcm_tokens w' = fcm_tokens w
    /\ notification_deliveries w' = notification_deliveries w ++ ds
    /\ calls w' = calls w ++ new
    /\ queries new = map Some ids
    /\ length (filter success results)
       = accepted_posts env (length (calls w)) new
    /\ Forall (fun m => exists tokens, m = build_message tokens r) (posts new).
Proof.
  revert w; induction ids as [|user ids IH]; intro w.
  - exists [], [], [], w. simpl. rewrite !app_nil_r. repeat split; auto.
  - destruct (sendToUser_calls env user r w)
      as (result & new1 & ds1 & w1 & H1 & Ht1 & Hd1 & Hc1 & Hq1 & Ha1 & Hp1).
    destruct (IH w1)
      as (results & new2 & ds2 & w2 & H2 & Hl2 & Ht2 & Hd2 & Hc2 & Hq2 & Ha2 & Hp2).
    exists (result :: results), (new1 ++ new2), (ds1 ++ ds2), w2.
    split.
    { simpl. unfold bind at 1. rewrite H1. unfold bind at 1. rewrite H2.
      reflexivity. }
    split; [simpl; congruence|].
    split; [congruence|].
    split; [rewrite Hd2, Hd1, app_assoc; reflexivity|].
    split; [rewrite Hc2, Hc1, app_assoc; reflexivity|].
    split; [rewrite queries_app, Hq1, Hq2; reflexivity|].
    split.
    { rewrite accepted_posts_app, Ha1, <- length_app, <- Hc1, <- Ha2.
      simpl. destruct (success result); simpl; reflexivity. }
    rewrite posts_app. apply Forall_app; split; assumption.
Qed.

(** *** The broadcast *)

Lemma sendToAllUsers_effects env r w :
  exists result w',
    sendToAllUsers env r w = (Returns result, w')
    /\ fcm_tokens w' = fcm_tokens w
    /\ notification_deliveries w' = notification_deliveries w
    /\ ((queried env w None = []
         /\ success result = false
         /\ calls w' = calls w ++ [TokenQuery None]
         /\ (store env (length (calls w)) = Serves ->
             result = failure "No active tokens found"))
        \/
        (queried env w None <> []
         /\ result = verdict (provider env (S (length (calls w))))
         /\ calls w'
            = calls w
              ++ [TokenQuery None;
                  ProviderPost
                    (build_message (map token (queried env w None)) r)])).
Proof.
  destruct (queried env w None) as [|x rows] eqn:E.
  - destruct (sendToAllUsers_no_rows env r w E) as (msg & H & Hs).
    exists (failure msg), (issue (TokenQuery None) w).
    rewrite H; simpl. do 3 (split; [reflexivity|]).
    left. repeat split; try reflexivity. intro S. rewrite (Hs S). reflexivity.
  - assert (N : queried env w None <> []) by (rewrite E; discriminate).
    pose proof (sendToAllUsers_rows env r w N) as H. cbv zeta in H.
    rewrite length_issue, E in H.
    eexists _, _. split; [exact H|].
    unfold issue; simpl. rewrite <- !app_assoc. simpl.
    do 2 (split; [reflexivity|]).
    right. split; [discriminate|]. split; reflexivity.
Qed.

(** The send functions read the request for its content only. *)
Lemma sendToAllUsers_recipient env t u us r :
  sendToAllUsers env (with_recipient t u us r) = sendToAllUsers env r.
Proof. reflexivity. Qed.

Lemma sendToUser_recipient env user t u us r :
  sendToUser env user (with_recipient t u us r) = sendToUser env user r.
Proof. reflexivity. Qed.

Lemma when_truthy_some x t :
  when_truthy x = Some t -> x = Some t /\ t <> "".
Proof.
  destruct x as [s|]; simpl; [|discriminate].
  unfold truthy_string. destruct (String.eqb_spec s ""); simpl;
    [discriminate|].
  intro H; injection H as <-. auto.
Qed.

Lemma when_truthy_nonempty t : t <> "" -> when_truthy (Some t) = Some t.
Proof.
  intro H. simpl. unfold truthy_string.
  apply String.eqb_neq in H. rewrite H. reflexivity.
Qed.

(** *** The handler, path by path *)

Lemma handler_options env req w :
  method req = "OPTIONS" -> handler env req w = (Returns preflight, w).
Proof. intro H. unfold handler. rewrite H. reflexivity. Qed.

Lemma handler_malformed env req msg w :
  method req <> "OPTIONS" -> json req = Throws msg ->
  handler env req w = (Returns (rejection msg), w).
Proof.
  intros Hm Hj. apply String.eqb_neq in Hm.
  unfold handler, try_catch, bind. rewrite Hm, Hj. reflexivity.
Qed.

Lemma handler_topic env req r t result w w' :
  method req <> "OPTIONS" -> json req = Returns r ->
  when_truthy (topic r) = Some t ->
  sendToAllUsers env r w = (Returns result, w') ->
  handler env req w = (Returns (summary [result]), w').
Proof.
  intros Hm Hj Ht H. apply String.eqb_neq in Hm.
  unfold handler, try_catch, bind. rewrite Hm, Hj, Ht, H. reflexivity.
Qed.

Lemma handler_user env req r user result w w' :
  method req <> "OPTIONS" -> json req = Returns r ->
  when_truthy (topic r) = None ->
  when_truthy (userId r) = Some user ->
  sendToUser env user r w = (Returns result, w') ->
  handler env req w = (Returns (summary [result]), w').
Proof.
  intros Hm Hj Ht Hu H. apply String.eqb_neq in Hm.
  unfold handler, try_catch, bind. rewrite Hm, Hj, Ht, Hu, H. reflexivity.
Qed.

Lemma handler_users env req r user ids results w w' :
  method req <> "OPTIONS" -> json req = Returns r ->
  when_truthy (topic r) = None ->
  when_truthy (userId r) = None ->
  userIds r = Some (user :: ids) ->
  for_of (user :: ids) (fun u => sendToUser env u r) w = (Returns results, w') ->
  handler env req w = (Returns (summary results), w').
Proof.
  intros Hm Hj Ht Hu Hl H. apply String.eqb_neq in Hm.
  unfold handler, try_catch, bind. rewrite Hm, Hj, Ht, Hu, Hl.
  cbn [length Nat.ltb Nat.leb].
  change (bind (sendToUser env user r) _ w)
    with (for_of (user :: ids) (fun u => sendToUser env u r) w).
  rewrite H. reflexivity.
Qed.

Lemma handler_nobody env req r w :
  method req <> "OPTIONS" -> json req = Returns r ->
  has_recipient r = false ->
  handler env req w = (Returns (rejection no_recipient), w).
Proof.
  intros Hm Hj Hr. apply String.eqb_neq in Hm.
  unfold handler, try_catch, bind. rewrite Hm, Hj.
  unfold has_recipient in Hr.
  destruct (when_truthy (topic r)); [discriminate|].
  destruct (when_truthy (userId r)); [discriminate|].
  destruct (userIds r) as [[|u us]|]; try discriminate; reflexivity.
Qed.

(** The handler always answers; with a recipient it answers with a summary. *)
Lemma handler_accepts env req r w :
  method req <> "OPTIONS" -> json req = Returns r ->
  has_recipient r = true ->
  exists results w',
    handler env req w = (Returns (summary results), w')
    /\ results <> [].
Proof.
  intros Hm Hj Hr. unfold has_recipient in Hr.
  destruct (when_truthy (topic r)) as [t|] eqn:Et.
  { destruct (queried env w None) as [|x rows] eqn:E.
    - destruct (sendToAllUsers_no_rows env r w E) as (msg & H & _).
      eexists _, _. split; [eapply handler_topic; eauto | discriminate].
    - eexists _, _. split.
      + eapply handler_topic; eauto.
        apply sendToAllUsers_rows. rewrite E; discriminate.
      + discriminate. }
  destruct (when_truthy (userId r)) as [u|] eqn:Eu.
  { destruct (sendToUser_effects env u r w) as (result & ds & w' & H & _).
    eexists _, _. split; [eapply handler_user; eauto | discriminate]. }
  destruct (userIds r) as [[|u us]|] eqn:El; try discriminate.
  destruct (users_effects env r (u :: us) w)
    as (results & new & ds & w' & H & Hl & _).
  exists results, w'. split; [eapply handler_users; eauto|].
  intro; subst results; discriminate.
Qed.

(** *** Every path at once *)

Lemma handler_effects env req w :
  exists response new ds w',
    handler env req w = (Returns response, w')
    /\ fcm_tokens w' = fcm_tokens w
    /\ notification_deliveries w' = notification_deliveries w ++ ds
    /\ calls w' = calls w ++ new
    /\ (forall r, json req = Returns r ->
         Forall (fun m => exists tokens, m = build_message tokens r) (posts new)).
Proof.
  assert (Idle : forall response,
             handler env req w = (Returns response, w) ->
             exists response new ds w',
               handler env req w = (Returns response, w')
               /\ fcm_tokens w' = fcm_tokens w
               /\ notification_deliveries w' = notification_deliveries w ++ ds
               /\ calls w' = calls w ++ new
               /\ (forall r, json req = Returns r ->
                    Forall (fun m => exists tokens, m = build_message tokens r)
                      (posts new))).
  { intros response H. exists response, [], [], w.
    rewrite !app_nil_r. repeat split; auto. }
  destruct (string_dec (method req) "OPTIONS") as [Hm|Hm].
  { eapply Idle, handler_options, Hm. }
  destruct (json req) as [r|msg] eqn:Hj.
  2:{ eapply Idle, handler_malformed; eauto. }
  destruct (when_truthy (topic r)) as [t|] eqn:Et.
  { destruct (sendToAllUsers_effects env r w)
      as (result & w' & H & Ht & Hd & [(_ & _ & Hc & _) | (_ & _ & Hc)]).
    - exists (summary [result]), [TokenQuery None], [], w'.
      rewrite app_nil_r.
      split; [eapply handler_topic; eauto|]. repeat split; auto.
    - eexists (summary [result]), _, [], w'.
      rewrite app_nil_r.
      split; [eapply handler_topic; eauto|].
      do 2 (split; [assumption|]). split; [exact Hc|].
      intros r0 Hr0; injection Hr0 as <-. simpl.
      constructor; [eexists; reflexivity | constructor]. }
  destruct (when_truthy (userId r)) as [u|] eqn:Eu.
  { destruct (sendToUser_calls env u r w)
      as (result & new & ds & w' & H & Ht & Hd & Hc & _ & _ & Hp).
    exists (summary [result]), new, ds, w'.
    split; [eapply handler_user; eauto|]. repeat split; auto.
    intros r0 Hr0; injection Hr0 as <-. exact Hp. }
  destruct (userIds r) as [[|u us]|] eqn:El.
  - eapply Idle, handler_nobody; eauto.
    unfold has_recipient. rewrite Et, Eu, El. reflexivity.
  - destruct (users_effects env r (u :: us) w)
      as (results & new & ds & w' & H & _ & Ht & Hd & Hc & _ & _ & Hp).
    exists (summary results), new, ds, w'.
    split; [eapply handler_users; eauto|]. repeat split; auto.
    intros r0 Hr0; injection Hr0 as <-. exact Hp.
  - eapply Idle, handler_nobody; eauto.
    unfold has_recipient. rewrite Et, Eu, El. reflexivity.
Qed.

(** *** Splitting a run over a list of recipients *)




(** *** The writes to the Delivery Log *)

(** One recipient: one insert per token row queried, each carrying the
    result of the batch; the log gains the rows of the inserts it stored. *)
Lemma sendToUser_writes env user r w :
  exists result new w',
    sendToUser env user r w = (Returns result, w')
    /\ calls w' = calls w ++ new
    /\ notification_deliveries w'
       = notification_deliveries w ++ stored_rows env (length (calls w)) new
    /\ Forall2 (logged_for r)
         (map (fun tokenRecord =>
                 (user, verdict (provider env (S (length (calls w)))),
                  tokenRecord))
              (queried env w (Some user)))
         (inserts new).
Proof.
  destruct (sendToUser_effects env user r w)
    as (result & ds & w' & H & _ & Hd & HF & Hcases).
  assert (HL : forall result',
             result = result' ->
             Forall2 (logged_for r)
               (map (fun tokenRecord => (user, result', tokenRecord))
                    (queried env w (Some user))) ds).
  { intros result' <-. clear - HF.
    induction HF as [|row d rows ds (time & ->) _ IH]; simpl;
      constructor; [|exact IH].
    unfold logged_for; simpl. repeat split; reflexivity. }
  destruct Hcases as [(E & _ & Hc) | (_ & Hr & Hc)].
  - exists result, [TokenQuery (Some user)], w'.
    rewrite E in HF. inversion HF; subst ds.
    simpl in Hd. split; [exact H|]. split; [exact Hc|].
    rewrite E. split; [exact Hd | constructor].
  - eexists result, _, w'. split; [exact H|]. split; [exact Hc|].
    cbn [stored_rows inserts]. rewrite inserts_map.
    split; [exact Hd | exact (HL _ Hr)].
Qed.

(** A list of recipients, one after the other. *)
Lemma users_writes env r ids w :
  exists results new w',
    for_of ids (fun user => sendToUser env user r) w = (Returns results, w')
    /\ calls w' = calls w ++ new
    /\ notification_deliveries w'
       = notification_deliveries w ++ stored_rows env (length (calls w)) new
    /\ Forall2 (logged_for r) (batches env r ids w) (inserts new).
Proof.
  revert w; induction ids as [|user ids IH]; intro w.
  - exists [], [], w. simpl. rewrite !app_nil_r.
    repeat split; constructor.
  - destruct (sendToUser_writes env user r w)
      as (result & new1 & w1 & H1 & Hc1 & Hd1 & HF1).
    destruct (IH w1) as (results & new2 & w2 & H2 & Hc2 & Hd2 & HF2).
    exists (result :: results), (new1 ++ new2), w2.
    split.
    { simpl. unfold bind at 1. rewrite H1. unfold bind at 1. rewrite H2.
      reflexivity. }
    split; [rewrite Hc2, Hc1, app_assoc; reflexivity|].
    split.
    { rewrite Hd2, Hd1, Hc1, stored_rows_app, length_app, app_assoc.
      reflexivity. }
    cbn [batches]. rewrite H1, inserts_app. cbn [snd].
    apply Forall2_app; assumption.
Qed.

(** Every path of the handler. *)
Lemma handler_writes env req w :
  exists response new w',
    handler env req w = (Returns response, w')
    /\ calls w' = calls w ++ new
    /\ notification_deliveries w'
       = notification_deliveries w ++ stored_rows env (length (calls w)) new
    /\ (forall r,
          method req <> "OPTIONS" -> json req = Returns r ->
          (when_truthy (topic r) <> None -> inserts new = [])
          /\ (when_truthy (topic r) = None ->
              Forall2 (logged_for r) (batches env r (addressed r) w)
                (inserts new))).
Proof.
  assert (Idle : forall response,
             handler env req w = (Returns response, w) ->
             (forall r, method req <> "OPTIONS" -> json req = Returns r ->
                when_truthy (topic r) = None -> batches env r (addressed r) w = []) ->
             exists response new w',
               handler env req w = (Returns response, w')
               /\ calls w' = calls w ++ new
               /\ notification_deliveries w'
                  = notification_deliveries w
                    ++ stored_rows env (length (calls w)) new
               /\ (forall r,
                     method req <> "OPTIONS" -> json req = Returns r ->
                     (when_truthy (topic r) <> None -> inserts new = [])
                     /\ (when_truthy (topic r) = None ->
                         Forall2 (logged_for r) (batches env r (addressed r) w)
                           (inserts new)))).
  { intros response H Hb. exists response, [], w. simpl.
    rewrite !app_nil_r. do 3 (split; [auto|]).
    intros r Hm Hj. split; [reflexivity|].
    intro Ht. rewrite (Hb r Hm Hj Ht). constructor. }
  destruct (string_dec (method req) "OPTIONS") as [Hm|Hm].
  { eapply Idle; [eapply handler_options, Hm|]. intros r N; contradiction. }
  destruct (json req) as [r|msg] eqn:Hj.
  2:{ eapply Idle; [eapply handler_malformed; eauto|]. discriminate. }
  destruct (when_truthy (topic r)) as [t|] eqn:Et.
  { destruct (sendToAllUsers_effects env r w)
      as (result & w' & H & _ & Hd & [(_ & _ & Hc & _) | (_ & _ & Hc)]).
    - exists (summary [result]), [TokenQuery None], w'.
      split; [eapply handler_topic; eauto|]. split; [exact Hc|].
      simpl. rewrite app_nil_r. split; [exact Hd|].
      intros r0 _ Hr0; injection Hr0 as <-. split; [reflexivity|].
      rewrite Et; discriminate.
    - eexists (summary [result]), _, w'.
      split; [eapply handler_topic; eauto|]. split; [exact Hc|].
      simpl. rewrite app_nil_r. split; [exact Hd|].
      intros r0 _ Hr0; injection Hr0 as <-. split; [reflexivity|].
      rewrite Et; discriminate. }
  destruct (when_truthy (userId r)) as [u|] eqn:Eu.
  { destruct (sendToUser_writes env u r w)
      as (result & new & w' & H & Hc & Hd & HF).
    exists (summary [result]), new, w'.
    split; [eapply handler_user; eauto|]. do 2 (split; [assumption|]).
    intros r0 _ Hr0; injection Hr0 as <-. split; [intro N; contradiction|].
    intros _. unfold addressed. rewrite Eu. cbn [batches].
    rewrite app_nil_r. exact HF. }
  destruct (userIds r) as [[|u us]|] eqn:El.
  - eapply Idle; [eapply handler_nobody; eauto|].
    + unfold has_recipient. rewrite Et, Eu, El. reflexivity.
    + intros r0 _ Hr0 _; injection Hr0 as <-.
      unfold addressed. rewrite Eu, El. reflexivity.
  - destruct (users_writes env r (u :: us) w)
      as (results & new & w' & H & Hc & Hd & HF).
    exists (summary results), new, w'.
    split; [eapply handler_users; eauto|]. do 2 (split; [assumption|]).
    intros r0 _ Hr0; injection Hr0 as <-. split; [intro N; contradiction|].
    intros _. unfold addressed. rewrite Eu, El. exact HF.
  - eapply Idle; [eapply handler_nobody; eauto|].
    + unfold has_recipient. rewrite Et, Eu, El. reflexivity.
    + intros r0 _ Hr0 _; injection Hr0 as <-.
      unfold addressed. rewrite Eu, El. reflexivity.
Qed.

End DispatchRuns.

(* ===================================================================== *)
(** ** The edge function: request validation and the HTTP answer         *)
(* ===================================================================== *)

Section DispatchBoundary.
Import Json Tables Js Dispatch DispatchSpec.
Local Open Scope js_scope.

(** C1. A request in which none of userId, userIds and topic is present is
    answered with the validation failure (status 500, [success: false], the
    "No valid recipient" error), and the world is left exactly as it was:
    no Token Store query, no provider POST, no row written. *)
Theorem C1_no_recipient_fails_without_network env req r w :
  method req <> "OPTIONS" ->
  json req = Returns r ->
  userId r = None -> userIds r = None -> topic r = None ->
  handler env req w
  = (Returns {| http_status := 500;
                headers := json_headers;
                response_body :=
                  Failure false
                    "No valid recipient specified (userId, userIds, or topic)" |},
     w).
Proof.
  intros Hm Hj Hu Hus Ht.
  apply (handler_nobody env req r w Hm Hj).
  unfold has_recipient. rewrite Hu, Hus, Ht. reflexivity.
Qed.

Lemma C1_witness :
  handler Sample.all_ok (post Sample.request) Sample.world
  = (Returns {| http_status := 500;
                headers := json_headers;
                response_body :=
                  Failure false
                    "No valid recipient specified (userId, userIds, or topic)" |},
     Sample.world).
Proof.
  apply (C1_no_recipient_fails_without_network
           Sample.all_ok (post Sample.request) Sample.request Sample.world).
  - discriminate.
  - reflexivity.
  - reflexivity.
  - reflexivity.
  - reflexivity.
Defined.

(** C8, as stated, fails: a single-user request for a user without tokens
    is answered 200 with [success: true] although no send succeeded. *)
Lemma C8_all_sends_failed_is_200 :
  fst (handler Sample.all_ok (post (Sample.to_user "nobody")) Sample.world)
  = Returns {| http_status := 200;
               headers := json_headers;
               response_body :=
                 Summary true "Sent 0 notifications, 1 failed"
                   [failure "No active tokens for user"] |}
  /\ existsb success [failure "No active tokens for user"] = false.
Proof. split; reflexivity. Qed.

(** C8, amended. The handler never throws.  It answers an OPTIONS preflight
    with 200 and no body; a request whose body parses and names a recipient
    with 200 and [{ success: true, message, results }], whatever the
    per-recipient results are; and a body that does not parse or names no
    recipient with 500 and [{ success: false, error }], without any call. *)
Theorem C8_handler_always_answers env req w :
  exists response w',
    handler env req w = (Returns response, w')
    /\ ((method req = "OPTIONS" /\ response = preflight /\ w' = w)
        \/
        (method req <> "OPTIONS"
         /\ exists r results,
              json req = Returns r /\ has_recipient r = true
              /\ results <> []
              /\ response
                 = {| http_status := 200;
                      headers := json_headers;
                      response_body :=
                        Summary true
                          ("Sent "
                             ++ string_of_nat (length (filter success results))
                             ++ " notifications, "
                             ++ string_of_nat
                                  (length (filter (fun x => negb (success x))
                                             results))
                             ++ " failed")%string
                          results |})
        \/
        (method req <> "OPTIONS"
         /\ w' = w
         /\ exists msg,
              response = {| http_status := 500;
                            headers := json_headers;
                            response_body := Failure false msg |}
              /\ (json req = Throws msg
                  \/ (msg = no_recipient
                      /\ exists r, json req = Returns r
                                   /\ has_recipient r = false)))).
Proof.
  destruct (string_dec (method req) "OPTIONS") as [Hm|Hm].
  - exists preflight, w. split; [apply handler_options; exact Hm|].
    left. auto.
  - destruct (json req) as [r|msg] eqn:Hj.
    + destruct (has_recipient r) eqn:Hr.
      * destruct (handler_accepts env req r w Hm Hj Hr) as (results & w' & H & N).
        exists (summary results), w'. split; [exact H|].
        right; left. split; [exact Hm|].
        exists r, results. repeat split; auto.
      * exists (rejection no_recipient), w.
        split; [apply (handler_nobody env req r w Hm Hj Hr)|].
        right; right. split; [exact Hm|]. split; [reflexivity|].
        exists no_recipient. split; [reflexivity|].
        right. split; [reflexivity|]. exists r. auto.
    + exists (rejection msg), w.
      split; [apply (handler_malformed env req msg w Hm Hj)|].
      right; right. split; [exact Hm|]. split; [reflexivity|].
      exists msg. split; [reflexivity|]. left. reflexivity.
Qed.

(** C9, as stated, fails: a request that sets both topic and userId is
    processed as a valid request (answered 200 with the broadcast result). *)
Lemma C9_two_shapes_are_processed :
  shapes (Sample.to_topic_and_user "all_users" "u1") = 2
  /\ fst (handler Sample.all_ok
            (post (Sample.to_topic_and_user "all_users" "u1")) Sample.world)
     = Returns {| http_status := 200;
                  headers := json_headers;
                  response_body :=
                    Summary true "Sent 1 notifications, 0 failed"
                      [{| success := true; error := None;
                          messageId := Some "t1";
                          tickets := Some [Sample.ok_ticket "t1";
                                           Sample.ok_ticket "t2"] |}] |}
  /\ posts (calls (snd (handler Sample.all_ok
                          (post (Sample.to_topic_and_user "all_users" "u1"))
                          Sample.world)))
     = [build_message
          ["ExponentPushToken[a]"; "ExponentPushToken[b]"; "ExponentPushToken[c]"]
          (Sample.to_topic_and_user "all_users" "u1")].
Proof. repeat split; reflexivity. Qed.

(** C9, amended. A request is processed past validation exactly when it has
    a usable recipient shape (a non-empty topic, a non-empty userId or a
    non-empty userIds list); it is then processed as the request that keeps
    only the first such shape in the order topic, userId, userIds, the other
    shapes being ignored.  Without a usable shape the answer is the
    validation error and nothing is called. *)
Theorem C9_first_shape_wins env req r w :
  method req <> "OPTIONS" ->
  json req = Returns r ->
  handler env req w
  = handler env {| method := method req; json := Returns (chosen r) |} w
  /\ shapes (chosen r) <= 1
  /\ (has_recipient r = true ->
      shapes (chosen r) = 1
      /\ exists results w',
           handler env req w = (Returns (summary results), w'))
  /\ (has_recipient r = false ->
      shapes (chosen r) = 0
      /\ handler env req w = (Returns (rejection no_recipient), w)).
Proof.
  intros Hm Hj.
  assert (Hshape : shapes (chosen r) <= 1
                   /\ (has_recipient r = true -> shapes (chosen r) = 1)
                   /\ (has_recipient r = false -> shapes (chosen r) = 0)).
  { unfold chosen, has_recipient.
    destruct (when_truthy (topic r)); [cbn; repeat split; auto; discriminate|].
    destruct (when_truthy (userId r)); [cbn; repeat split; auto; discriminate|].
    destruct (userIds r) as [[|u us]|]; cbn; repeat split; auto; discriminate. }
  destruct Hshape as (H1 & H2 & H3).
  split; [|split; [exact H1|split]].
  - set (req' := {| method := method req; json := Returns (chosen r) |}).
    assert (Hm' : method req' <> "OPTIONS") by exact Hm.
    assert (Hj' : json req' = Returns (chosen r)) by reflexivity.
    unfold chosen in *.
    destruct (when_truthy (topic r)) as [t|] eqn:Et.
    { destruct (sendToAllUsers_effects env r w) as (result & w' & H & _).
      rewrite (handler_topic env req r t result w w' Hm Hj Et H).
      symmetry. eapply handler_topic; eauto.
      apply when_truthy_nonempty. apply (when_truthy_some _ _ Et). }
    destruct (when_truthy (userId r)) as [u|] eqn:Eu.
    { destruct (sendToUser_effects env u r w) as (result & ds & w' & H & _).
      rewrite (handler_user env req r u result w w' Hm Hj Et Eu H).
      symmetry. eapply handler_user; eauto.
      apply when_truthy_nonempty. apply (when_truthy_some _ _ Eu). }
    destruct (userIds r) as [[|u us]|] eqn:El.
    + rewrite (handler_nobody env req r w Hm Hj)
        by (unfold has_recipient; rewrite Et, Eu, El; reflexivity).
      symmetry. apply (handler_nobody env req' _ w Hm' Hj'). reflexivity.
    + destruct (users_effects env r (u :: us) w)
        as (results & new & ds & w' & H & _).
      rewrite (handler_users env req r u us results w w' Hm Hj Et Eu El H).
      symmetry.
      apply (handler_users env req' _ u us results w w' Hm' Hj'
               eq_refl eq_refl eq_refl).
      exact H.
    + rewrite (handler_nobody env req r w Hm Hj)
        by (unfold has_recipient; rewrite Et, Eu, El; reflexivity).
      symmetry. apply (handler_nobody env req' _ w Hm' Hj'). reflexivity.
  - intro Hr. split; [exact (H2 Hr)|].
    destruct (handler_accepts env req r w Hm Hj Hr) as (results & w' & H & _).
    eauto.
  - intro Hr. split; [exact (H3 Hr)|].
    apply (handler_nobody env req r w Hm Hj Hr).
Qed.

Lemma C9_witness :
  handler Sample.all_ok
    (post (Sample.to_topic_and_user "all_users" "u1")) Sample.world
  = handler Sample.all_ok (post (Sample.to_topic "all_users")) Sample.world
  /\ has_recipient (Sample.to_topic_and_user "all_users" "u1") = true.
Proof.
  split; [|reflexivity].
  exact (proj1 (C9_first_shape_wins Sample.all_ok
                  (post (Sample.to_topic_and_user "all_users" "u1"))
                  (Sample.to_topic_and_user "all_users" "u1") Sample.world
                  ltac:(discriminate) eq_refl)).
Defined.

End DispatchBoundary.

(* ===================================================================== *)
(** ** The edge function: recipients, provider replies, delivery log     *)
(* ===================================================================== *)

Section DispatchSends.
Import Json Tables Js Dispatch DispatchSpec.
Local Open Scope js_scope.

(** C2, as stated, fails on the empty topic: with [topic: ""] and no other
    recipient the answer is the validation error rather than a "no active
    tokens" result; with [topic: ""] and a userId only that user's tokens
    are addressed, not every active token. *)
Lemma C2_empty_topic_is_no_broadcast :
  is_set (topic (Sample.to_topic "")) = true
  /\ handler Sample.all_ok (post (Sample.to_topic "")) Sample.empty_world
     = (Returns (rejection no_recipient), Sample.empty_world)
  /\ posts (calls (snd (handler Sample.all_ok
                          (post (Sample.to_topic_and_user "" "u2"))
                          Sample.world)))
     = [build_message ["ExponentPushToken[c]"]
          (Sample.to_topic_and_user "" "u2")]
  /\ map token (filter (fun row => prefix "expo-" (platform row) && is_active row)
                  (fcm_tokens Sample.world))
     = ["ExponentPushToken[a]"; "ExponentPushToken[b]"; "ExponentPushToken[c]"].
Proof. repeat split; reflexivity. Qed.

(** C2, amended. For every request with a non-empty topic whose token query
    is served, the recipients are exactly the Token Store rows whose platform
    starts with "expo-" and whose active flag is set: when there is none the
    single result is the failure "No active tokens found" and the query is
    the only call; otherwise one message goes to the provider, addressed to
    the tokens of exactly those rows.  Replacing the topic by any other
    non-empty topic changes nothing. *)
Theorem C2_topic_broadcast env req r t w :
  method req <> "OPTIONS" ->
  json req = Returns r ->
  topic r = Some t -> t <> "" ->
  store env (length (calls w)) = Serves ->
  let rows :=
    filter (fun row => prefix "expo-" (platform row) && is_active row)
      (fcm_tokens w) in
  (rows = [] ->
   handler env req w
   = (Returns (summary [failure "No active tokens found"]),
      issue (TokenQuery None) w)
   /\ posts (calls (snd (handler env req w))) = posts (calls w))
  /\ (rows <> [] ->
      exists result,
        handler env req w
        = (Returns (summary [result]),
           issue (ProviderPost (build_message (map token rows) r))
             (issue (TokenQuery None) w)))
  /\ (forall t', t' <> "" ->
      handler env {| method := method req;
                     json := Returns (with_topic (Some t') r) |} w
      = handler env req w).
Proof.
  intros Hm Hj Ht Hne Hs rows.
  assert (Et : when_truthy (topic r) = Some t)
    by (rewrite Ht; apply when_truthy_nonempty, Hne).
  assert (Eq : queried env w None = rows).
  { unfold queried. rewrite Hs. apply filter_ext. intro row. reflexivity. }
  destruct (sendToAllUsers_effects env r w)
    as (result & w' & H & _ & _ & Hcase).
  split; [|split].
  - intro E. rewrite <- Eq in E.
    destruct (sendToAllUsers_no_rows env r w E) as (msg & H' & Hmsg).
    rewrite (Hmsg Hs) in H'.
    rewrite (handler_topic env req r t _ w _ Hm Hj Et H').
    split; [reflexivity|].
    simpl. rewrite posts_app, app_nil_r. reflexivity.
  - intro N. rewrite <- Eq in N.
    pose proof (sendToAllUsers_rows env r w N) as H'. cbv zeta in H'.
    rewrite Eq in H'.
    eexists. eapply handler_topic; eauto.
  - intros t' Hne'.
    rewrite (handler_topic env req r t result w w' Hm Hj Et H).
    eapply handler_topic with (r := with_topic (Some t') r) (t := t');
      [exact Hm | reflexivity | apply when_truthy_nonempty, Hne' | exact H].
Qed.

Lemma C2_witness :
  exists result,
    handler Sample.all_ok (post (Sample.to_topic "all_users")) Sample.world
    = (Returns (summary [result]),
       issue (ProviderPost
                (build_message
                   ["ExponentPushToken[a]"; "ExponentPushToken[b]";
                    "ExponentPushToken[c]"]
                   (Sample.to_topic "all_users")))
         (issue (TokenQuery None) Sample.world)).
Proof.
  refine (proj1 (proj2 (C2_topic_broadcast Sample.all_ok
                          (post (Sample.to_topic "all_users"))
                          (Sample.to_topic "all_users") "all_users" Sample.world
                          _ eq_refl eq_refl _ eq_refl)) _);
    discriminate.
Defined.

(** C3. [sendExpoNotification] posts one batch and returns a result.  When
    the provider's HTTP status is not a success the result is a failure.
    When it is a success and the reply has a ticket list with at least one
    error ticket, the result is a success exactly when some ticket has status
    ok, and its error field reports the number of error tickets. *)
Theorem C3_batch_result env tokens r w ok reply :
  provider env (length (calls w)) = Reply ok reply ->
  exists result,
    sendExpoNotification env tokens r w
    = (Returns result, issue (ProviderPost (build_message tokens r)) w)
    /\ (ok = false -> success result = false)
    /\ (ok = true ->
        forall message ticket_list,
          reply = Json message (Some ticket_list) ->
          (exists t, In t ticket_list /\ ticket_status t = "error") ->
          (success result = true
           <-> exists t, In t ticket_list /\ ticket_status t = "ok")
          /\ error result
             = Some (string_of_nat
                       (length (filter (fun t => ticket_status t =? "error")
                                  ticket_list))
                       ++ " notifications failed")%string).
Proof.
  intro Hp. eexists. split; [apply sendExpoNotification_run|].
  rewrite Hp. split.
  - intros ->. destruct reply; reflexivity.
  - intros -> message ticket_list -> (t & Hin & Hst).
    simpl.
    assert (E : existsb is_error ticket_list = true).
    { apply existsb_exists. exists t. split; [exact Hin|].
      unfold is_error. rewrite Hst. reflexivity. }
    rewrite E. simpl. split; [|reflexivity].
    rewrite existsb_exists. unfold is_ok.
    split; intros (t' & Hin' & H'); exists t'; split; auto.
    + apply String.eqb_eq, H'.
    + apply String.eqb_eq, H'.
Qed.

Lemma C3_witness :
  exists result,
    sendExpoNotification Sample.mixed ["ExponentPushToken[a]"; "ExponentPushToken[b]"]
      (Sample.to_user "u1") Sample.world
    = (Returns result,
       issue (ProviderPost
                (build_message ["ExponentPushToken[a]"; "ExponentPushToken[b]"]
                   (Sample.to_user "u1")))
         Sample.world)
    /\ success result = true
    /\ error result = Some "1 notifications failed".
Proof.
  destruct (C3_batch_result Sample.mixed
              ["ExponentPushToken[a]"; "ExponentPushToken[b]"]
              (Sample.to_user "u1") Sample.world true
              (Json None (Some [Sample.ok_ticket "t1";
                                Sample.error_ticket "DeviceNotRegistered"]))
              eq_refl)
    as (result & Hrun & _ & Hok).
  exists result. split; [exact Hrun|].
  destruct (Hok eq_refl None _ eq_refl) as (Hiff & Herr).
  - exists (Sample.error_ticket "DeviceNotRegistered").
    split; [right; left; reflexivity | reflexivity].
  - split; [|exact Herr].
    apply Hiff. exists (Sample.ok_ticket "t1").
    split; [left; reflexivity | reflexivity].
Defined.




(** C5. On the userId path and on the userIds path the handler issues, for
    each user it sends to and in order, exactly one Delivery Log insert per
    token row that user's query handed over: for that user and that row's
    platform, with the request's type, and with status "sent" when the result
    of the user's batch is a success and "failed" otherwise (error message
    and message id are the batch's too), whatever the row's own ticket says.
    On the topic path it issues no insert.  Whatever the request, the log
    afterwards is the log before, unchanged and in the same order, followed
    by the rows of the inserts the database stored: all of them when the
    database refuses none. *)
Theorem C5_delivery_log env req w :
  exists new,
    calls (snd (handler env req w)) = calls w ++ new
    /\ notification_deliveries (snd (handler env req w))
       = notification_deliveries w ++ stored_rows env (length (calls w)) new
    /\ ((forall n, deliveries_log env n = Stores) ->
        notification_deliveries (snd (handler env req w))
        = notification_deliveries w ++ inserts new)
    /\ (forall r,
          method req <> "OPTIONS" -> json req = Returns r ->
          (when_truthy (topic r) <> None -> inserts new = [])
          /\ (when_truthy (topic r) = None ->
              Forall2 (logged_for r) (batches env r (addressed r) w)
                (inserts new))).
Proof.
  destruct (handler_writes env req w)
    as (response & new & w' & H & Hc & Hd & Hpaths).
  exists new. rewrite H. cbn [snd].
  split; [exact Hc|]. split; [exact Hd|]. split; [|exact Hpaths].
  intro Hall. rewrite Hd, (stored_rows_all env _ new Hall). reflexivity.
Qed.

Lemma C5_witness :
  exists new,
    calls (snd (handler Sample.mixed (post (Sample.to_user "u1")) Sample.world))
    = calls Sample.world ++ new
    /\ Forall2 (logged_for (Sample.to_user "u1"))
         (batches Sample.mixed (Sample.to_user "u1") ["u1"] Sample.world)
         (inserts new)
    /\ map (fun d => (delivery_user_id d, delivery_platform d, status d))
         (inserts new)
       = [("u1", "expo-ios", "sent"); ("u1", "expo-android", "sent")]
    /\ notification_deliveries
         (snd (handler Sample.mixed (post (Sample.to_user "u1")) Sample.world))
       = notification_deliveries Sample.world ++ inserts new.
Proof.
  destruct (C5_delivery_log Sample.mixed (post (Sample.to_user "u1"))
              Sample.world)
    as (new & Hc & _ & Hall & Hpaths).
  exists new. split; [exact Hc|].
  split.
  { exact (proj2 (Hpaths (Sample.to_user "u1") ltac:(discriminate) eq_refl)
             eq_refl). }
  split; [|exact (Hall (fun _ => eq_refl))].
  cbn in Hc. subst new. reflexivity.
Defined.

(** C10. Every message the handler posts to the provider for a request has
    sound 'default', also when the request sets sound to null, and
    channelId 'default'; its priority is the request's priority when one is
    given and 'normal' when it is not. *)
Theorem C10_envelope_defaults env req r w :
  json req = Returns r ->
  exists new,
    calls (snd (handler env req w)) = calls w ++ new
    /\ forall m,
         In m (posts new) ->
         msg_sound m = SoundDefault
         /\ msg_channelId m = "default"
         /\ (sound r = Some SoundNull -> msg_sound m <> SoundNull)
         /\ (priority r = None -> msg_priority m = PriorityNormal)
         /\ (forall p, priority r = Some p -> msg_priority m = p).
Proof.
  intro Hj.
  destruct (handler_effects env req w)
    as (response & new & ds & w' & H & _ & _ & Hc & Hp).
  exists new. rewrite H. split; [exact Hc|].
  intros m Hin.
  pose proof (Hp r Hj) as HF. rewrite Forall_forall in HF.
  destruct (HF m Hin) as (tokens & ->).
  unfold build_message; simpl.
  split.
  { destruct (sound r) as [[|]|]; reflexivity. }
  split; [reflexivity|].
  split.
  { intros ->. simpl. discriminate. }
  split.
  { intros ->. reflexivity. }
  intros p ->. reflexivity.
Qed.

Lemma C10_witness :
  sound (Sample.to_user "u1") = Some SoundNull
  /\ exists new,
       calls (snd (handler Sample.all_ok (post (Sample.to_user "u1")) Sample.world))
       = calls Sample.world ++ new
       /\ map msg_sound (posts new) = [SoundDefault]
       /\ map msg_priority (posts new) = [PriorityNormal]
       /\ map msg_channelId (posts new) = ["default"].
Proof.
  split; [reflexivity|].
  destruct (C10_envelope_defaults Sample.all_ok (post (Sample.to_user "u1"))
              (Sample.to_user "u1") Sample.world eq_refl)
    as (new & Hc & Hall).
  exists new. split; [exact Hc|].
  cbn in Hc. subst new.
  destruct (Hall _ (or_introl eq_refl)) as (Hs & Hch & _ & Hp & _).
  cbn [posts map]. rewrite Hs, Hch, (Hp eq_refl). repeat split.
Defined.

End DispatchSends.

(* ===================================================================== *)
(** ** The realtime trigger listener                                     *)
(* ===================================================================== *)

Section ListenerFacts.
Import Json Js Dispatch DispatchSpec Listener.

Example like_event_body :
  map invocation_body (on_insert "u1" Sample.like_event)
  = [[("user_id", JStr "u1");
      ("title", JStr "New like");
      ("body", JStr "Someone liked your post");
      ("notification_type", JStr "like");
      ("data", JObj [("notification_id", JStr "n1");
                     ("type", JStr "like");
                     ("postId", JStr "p1")])]].
Proof. reflexivity. Qed.

(** The invocation body names its recipient [user_id]; the keys the edge
    function reads are absent. *)
Lemma push_body_keys user n :
  lookup "user_id" (push_body user n) = Some (JStr user)
  /\ lookup "userId" (push_body user n) = None
  /\ lookup "userIds" (push_body user n) = None
  /\ lookup "topic" (push_body user n) = None.
Proof. repeat split; reflexivity. Qed.

Lemma read_push_body user n :
  Wire.read_request (push_body user n)
  = Some {| userId := None; userIds := None; topic := None;
            title := notification_title n;
            body := notification_message n;
            data := Some (obj_spread
                            [("notification_id", JStr (notification_id n));
                             ("type", JStr (notification_kind n))]
                            (match notification_data n with
                             | Some o => o
                             | None => []
                             end));
            priority := None; sound := None; badge := None |}.
Proof. reflexivity. Qed.

(** C6. For an event whose type is on the allow-list the listener issues one
    invocation of [send-expo-notification]; its body carries the event's
    title, message, type and payload, and the user under the key [user_id].
    The edge function reads [userId], so the request it receives names no
    recipient: it answers with the validation error and sends nothing.  For
    an event whose type is not on the list nothing is invoked. *)
Theorem C6_listener_invocation user n env w :
  (includes pushNotificationTypes (notification_kind n) = true ->
   exists b req,
     on_insert user n
     = [{| function_name := "send-expo-notification"; invocation_body := b |}]
     /\ lookup "user_id" b = Some (JStr user)
     /\ lookup "title" b = Some (JStr (notification_title n))
     /\ lookup "body" b = Some (JStr (notification_message n))
     /\ lookup "notification_type" b = Some (JStr (notification_kind n))
     /\ lookup "userId" b = None
     /\ Wire.post b = Some req
     /\ handler env req w = (Returns (rejection no_recipient), w))
  /\ (includes pushNotificationTypes (notification_kind n) = false ->
      on_insert user n = []).
Proof.
  split; intro H; unfold on_insert; rewrite H; [|reflexivity].
  eexists (push_body user n), _.
  split; [reflexivity|].
  do 5 (split; [reflexivity|]).
  split.
  - unfold Wire.post. rewrite read_push_body. reflexivity.
  - apply handler_nobody with
      (r := {| userId := None; userIds := None; topic := None;
               title := notification_title n;
               body := notification_message n;
               data := Some (obj_spread
                               [("notification_id", JStr (notification_id n));
                                ("type", JStr (notification_kind n))]
                               (match notification_data n with
                                | Some o => o
                                | None => []
                                end));
               priority := None; sound := None; badge := None |});
      [discriminate | reflexivity | reflexivity].
Qed.

Lemma C6_witness :
  (exists b req,
      on_insert "u1" Sample.like_event
      = [{| function_name := "send-expo-notification"; invocation_body := b |}]
      /\ lookup "userId" b = None
      /\ Wire.post b = Some req
      /\ handler Sample.all_ok req Sample.world
         = (Returns (rejection no_recipient), Sample.world))
  /\ on_insert "u1" Sample.test_event = [].
Proof.
  destruct (C6_listener_invocation "u1" Sample.like_event Sample.all_ok Sample.world)
    as (Hin & _).
  destruct (C6_listener_invocation "u1" Sample.test_event Sample.all_ok Sample.world)
    as (_ & Hout).
  split; [|exact (Hout eq_refl)].
  destruct (Hin eq_refl) as (b & req & H1 & _ & _ & _ & _ & H2 & H3 & H4).
  exists b, req. auto.
Defined.

End ListenerFacts.

(* ===================================================================== *)
(** ** The device registration service                                   *)
(* ===================================================================== *)

Section RegistrationFacts.
Import Json Tables Js Registration RegistrationSpec.
Local Open Scope js_scope.

Example initialize_on_a_working_phone :
  fst (initialize Sample.phone Sample.fresh) = Returns true
  /\ getToken (snd (initialize Sample.phone Sample.fresh))
     = Some "ExponentPushToken[a]"
  /\ map token (fcm_tokens (snd (initialize Sample.phone Sample.fresh)))
     = map token Sample.store_rows
  /\ length (sdk_calls (snd (initialize Sample.phone Sample.fresh))) = 7.
Proof. repeat split; reflexivity. Qed.

(** *** The upsert keeps the conflict target unique *)

Lemma same_key_true a b : same_key a b = true <-> key a = key b.
Proof.
  unfold same_key, key. rewrite !andb_true_iff, !String.eqb_eq.
  split; [intros [[-> ->] ->]; reflexivity | intro H; injection H; auto].
Qed.

Lemma upsert_row_keys r table k :
  In k (map key (upsert_row r table)) -> k = key r \/ In k (map key table).
Proof.
  induction table as [|x table IH]; simpl.
  - intros [<-|[]]; auto.
  - destruct (same_key r x) eqn:E; simpl.
    + intros [<-|H]; auto.
    + intros [<-|H]; auto. destruct (IH H); auto.
Qed.

Lemma upsert_row_unique r table :
  keys_unique table -> keys_unique (upsert_row r table).
Proof.
  unfold keys_unique. induction table as [|x table IH]; simpl; intro H.
  - constructor; [intros [] | constructor].
  - inversion H as [|k ks Hnot Hrest]; subst.
    destruct (same_key r x) eqn:E; simpl.
    + apply same_key_true in E. rewrite E. constructor; assumption.
    + constructor; [|apply IH, Hrest].
      intro Hin. apply upsert_row_keys in Hin. destruct Hin as [Hk|Hin].
      * symmetry in Hk. apply same_key_true in Hk. congruence.
      * contradiction.
Qed.

(** Writing the same row again changes nothing. *)
Lemma upsert_row_again r table :
  upsert_row r (upsert_row r table) = upsert_row r table.
Proof.
  assert (R : same_key r r = true) by (apply same_key_true; reflexivity).
  induction table as [|x table IH]; simpl.
  - rewrite R. reflexivity.
  - destruct (same_key r x) eqn:E; simpl.
    + rewrite R. reflexivity.
    + rewrite E, IH. reflexivity.
Qed.

(** Writing a row with the same conflict target again adds no key. *)
Lemma upsert_row_same_key r1 r2 table :
  key r1 = key r2 ->
  map key (upsert_row r2 (upsert_row r1 table)) = map key (upsert_row r1 table).
Proof.
  intro K.
  assert (R : same_key r2 r1 = true) by (apply same_key_true; auto).
  induction table as [|x table IH]; simpl.
  - rewrite R. simpl. congruence.
  - destruct (same_key r1 x) eqn:E; simpl.
    + rewrite R. simpl. congruence.
    + assert (E2 : same_key r2 x = false).
      { destruct (same_key r2 x) eqn:E2; [|reflexivity].
        apply same_key_true in E2. rewrite <- K in E2.
        apply same_key_true in E2. congruence. }
      rewrite E2. simpl. rewrite IH. reflexivity.
Qed.

(** *** Two calls of [initialize] in one session *)

Lemma initialize_twice env s :
  keys_unique (fcm_tokens s) ->
  exists b1 b2,
    fst (initialize env s) = Returns b1
    /\ fst (initialize env (snd (initialize env s))) = Returns b2
    /\ getToken (snd (initialize env (snd (initialize env s))))
       = getToken (snd (initialize env s))
    /\ fcm_tokens (snd (initialize env (snd (initialize env s))))
       = fcm_tokens (snd (initialize env s))
    /\ keys_unique (fcm_tokens (snd (initialize env s)))
    /\ (fcm_tokens (snd (initialize env s)) = fcm_tokens s
        \/ exists row,
             fcm_tokens (snd (initialize env s))
             = upsert_row row (fcm_tokens s)
             /\ getToken (snd (initialize env s)) = Some (token row)
             /\ platform row = ("expo-" ++ os env)%string
             /\ signed_in env = Returns (Some (user_id row)))
    /\ (b1 = true ->
        initialize env (snd (initialize env s))
        = (Returns true, snd (initialize env s)))
    /\ (isInitialized (snd (initialize env s)) = false ->
        b1 = false /\ b2 = false).
Proof.
  destruct s as [init tok perm table log].
  destruct env as [dev rejects answer project pushed user os_ dn ov mn mode time].
  cbn [fcm_tokens os signed_in]. intro U.
  unfold initialize, requestPermissions, getExpoPushToken, saveTokenToDatabase,
    setupNotificationListeners, getPermissionsAsync, requestPermissionsAsync,
    getExpoPushTokenAsync, getUser, upsert, addListener, remember, clock,
    try_catch, bind, ret, issue, getToken.
  cbn -[upsert_row keys_unique String.append].
  repeat (expose_case; cbn -[upsert_row keys_unique String.append]);
    eexists _, _;
    repeat (split; [first [reflexivity | assumption
                           | apply upsert_row_unique; assumption]|]);
    (split;
     [first [left; reflexivity
            | right; eexists; repeat split; reflexivity]|]);
    split; first [reflexivity | discriminate | intros _; split; reflexivity].
Qed.

(** A call that leaves the service uninitialised is followed by a call that
    goes through the same steps: the same SDK calls are issued again, the
    prompt excepted once the permission has been granted. *)
Lemma initialize_again env s :
  isInitialized (snd (initialize env s)) = false ->
  exists new1 new2,
    sdk_calls (snd (initialize env s)) = sdk_calls s ++ new1
    /\ sdk_calls (snd (initialize env (snd (initialize env s))))
       = sdk_calls (snd (initialize env s)) ++ new2
    /\ new2 = (if is_granted (permission (snd (initialize env s)))
               then without_prompt new1 else new1)
    /\ (isDevice env = true -> exists rest, new2 = GetPermissions :: rest).
Proof.
  destruct s as [init tok perm table log].
  destruct env as [dev rejects answer project pushed user os_ dn ov mn mode time].
  unfold initialize, requestPermissions, getExpoPushToken, saveTokenToDatabase,
    setupNotificationListeners, getPermissionsAsync, requestPermissionsAsync,
    getExpoPushTokenAsync, getUser, upsert, addListener, remember, clock,
    try_catch, bind, ret, issue.
  cbn -[upsert_row String.append].
  repeat (expose_case; cbn -[upsert_row String.append]);
    intro Hi;
    first
      [ discriminate Hi
      | eexists _, _;
        split; [rewrite <- ?app_assoc; cbn [app]; try reflexivity;
                symmetry; apply app_nil_r|];
        split; [rewrite <- ?app_assoc; cbn [app]; try reflexivity;
                symmetry; apply app_nil_r|];
        split; [reflexivity|];
        first [discriminate | intros _; eexists; reflexivity] ].
Qed.

(** Saving a token twice for the same user leaves the keys of the table as
    the first save left them. *)
Lemma saveTokenToDatabase_twice env tok user s :
  map key (fcm_tokens
             (snd (saveTokenToDatabase env tok user
                     (snd (saveTokenToDatabase env tok user s)))))
  = map key (fcm_tokens (snd (saveTokenToDatabase env tok user s))).
Proof.
  unfold saveTokenToDatabase, upsert, clock, try_catch, bind, ret, issue.
  destruct (upsert_mode env); cbn -[upsert_row String.append];
    try reflexivity.
  apply upsert_row_same_key. reflexivity.
Qed.

Lemma sample_rows_unique : keys_unique Sample.store_rows.
Proof.
  unfold keys_unique, Sample.store_rows; simpl.
  repeat (constructor; [simpl; intuition discriminate|]). constructor.
Qed.

(** C7, as stated, fails: after a call that failed (the user refused the
    permission) the next call is not a no-op; it queries the permission and
    prompts the user again. *)
Lemma C7_call_after_failure_runs_again :
  fst (initialize Sample.refusing Sample.fresh) = Returns false
  /\ sdk_calls (snd (initialize Sample.refusing Sample.fresh))
     = [GetPermissions; RequestPermissions]
  /\ sdk_calls (snd (initialize Sample.refusing
                       (snd (initialize Sample.refusing Sample.fresh))))
     = [GetPermissions; RequestPermissions; GetPermissions; RequestPermissions].
Proof. repeat split; reflexivity. Qed.

(** C7, amended. [initialize] never throws.  For two calls in one session on
    the same device, user and backend: the token held after the second call
    is the token held after the first, and the second call leaves the Token
    Store as the first left it.  The first call writes at most one row, by
    an upsert on (user, platform, token), so a table without duplicate keys
    has none afterwards; saving the same token for the same user again adds
    no key.  After a call that returned true the next call is a no-op
    returning true.  After a call that left the service uninitialised the
    next call is no no-op: it goes through the sequence again, issuing the
    same SDK calls as the failed call (on a physical device it starts with
    the permission query), except that the prompt is left out when the
    permission has been granted in between, and it fails again. *)
Theorem C7_initialize_twice env s :
  keys_unique (fcm_tokens s) ->
  let first := initialize env s in
  let second := initialize env (snd first) in
  (exists b1 b2,
      fst first = Returns b1
      /\ fst second = Returns b2
      /\ (b1 = true -> second = (Returns true, snd first))
      /\ (isInitialized (snd first) = false -> b1 = false /\ b2 = false))
  /\ (isInitialized (snd first) = false ->
      exists new1 new2,
        sdk_calls (snd first) = sdk_calls s ++ new1
        /\ sdk_calls (snd second) = sdk_calls (snd first) ++ new2
        /\ new2 = (if is_granted (permission (snd first))
                   then without_prompt new1 else new1)
        /\ (isDevice env = true -> exists rest, new2 = GetPermissions :: rest))
  /\ getToken (snd second) = getToken (snd first)
  /\ fcm_tokens (snd second) = fcm_tokens (snd first)
  /\ (fcm_tokens (snd first) = fcm_tokens s
      \/ exists row,
           fcm_tokens (snd first) = upsert_row row (fcm_tokens s)
           /\ getToken (snd first) = Some (token row)
           /\ platform row = ("expo-" ++ os env)%string
           /\ signed_in env = Returns (Some (user_id row)))
  /\ keys_unique (fcm_tokens (snd second))
  /\ (forall tok user c,
        map key (fcm_tokens
                   (snd (saveTokenToDatabase env tok user
                           (snd (saveTokenToDatabase env tok user c)))))
        = map key (fcm_tokens (snd (saveTokenToDatabase env tok user c)))).
Proof.
  intros U first second. subst first second.
  destruct (initialize_twice env s U)
    as (b1 & b2 & H1 & H2 & Ht & Hf & Hu & Hw & Hn & Hr).
  split; [exists b1, b2; auto|].
  split; [apply initialize_again|].
  do 3 (split; [assumption|]).
  split; [rewrite Hf; exact Hu|].
  intros. apply saveTokenToDatabase_twice.
Qed.

Lemma C7_witness :
  (initialize Sample.phone (snd (initialize Sample.phone Sample.fresh))
   = (Returns true, snd (initialize Sample.phone Sample.fresh))
   /\ getToken (snd (initialize Sample.phone
                       (snd (initialize Sample.phone Sample.fresh))))
      = Some "ExponentPushToken[a]"
   /\ keys_unique
        (fcm_tokens (snd (initialize Sample.phone
                            (snd (initialize Sample.phone Sample.fresh))))))
  /\ (fst (initialize Sample.refusing
             (snd (initialize Sample.refusing Sample.fresh)))
      = Returns false
      /\ exists new2,
           sdk_calls (snd (initialize Sample.refusing
                             (snd (initialize Sample.refusing Sample.fresh))))
           = sdk_calls (snd (initialize Sample.refusing Sample.fresh)) ++ new2
           /\ new2 = [GetPermissions; RequestPermissions]).
Proof.
  split.
  - destruct (C7_initialize_twice Sample.phone Sample.fresh sample_rows_unique)
      as ((b1 & b2 & H1 & _ & Hn & _) & _ & Ht & _ & _ & Hu & _).
    split; [|split].
    + apply Hn. vm_compute in H1. congruence.
    + rewrite Ht. reflexivity.
    + exact Hu.
  - destruct (C7_initialize_twice Sample.refusing Sample.fresh
                sample_rows_unique)
      as ((b1 & b2 & _ & H2 & _ & Hr) & Hagain & _).
    destruct (Hr eq_refl) as (_ & Hb2).
    destruct (Hagain eq_refl) as (new1 & new2 & Hc1 & Hc2 & Hnew & _).
    split; [rewrite H2, Hb2; reflexivity|].
    exists new2. split; [exact Hc2|].
    rewrite Hnew. cbn in Hc1. subst new1. reflexivity.
Defined.

End RegistrationFacts.

(* ===================================================================== *)
(** ** The edge function: further facts                                  *)
(* ===================================================================== *)

Section DispatchMore.
Import Json Tables Js Dispatch DispatchSpec.
Local Open Scope js_scope.

(** X1. Whatever the request and whatever the collaborators answer, the
    handler leaves the Token Store as it found it: no row is added, removed
    or deactivated, also not after the provider rejected a token. *)
Theorem handler_keeps_token_store env req w :
  fcm_tokens (snd (handler env req w)) = fcm_tokens w.
Proof.
  destruct (handler_effects env req w)
    as (response & new & ds & w' & H & Ht & _).
  rewrite H. exact Ht.
Qed.

Lemma queried_selected env w user row :
  In row (queried env w user) ->
  In row (fcm_tokens w) /\ selected user row = true.
Proof.
  unfold queried. destruct (store env (length (calls w))); simpl;
    try contradiction.
  apply filter_In.
Qed.

Lemma selected_user u row :
  selected (Some u) row = true ->
  user_id row = u /\ prefix "expo-" (platform row) = true
  /\ is_active row = true.
Proof.
  unfold selected. rewrite !andb_true_iff, String.eqb_eq. tauto.
Qed.

Lemma selected_any row :
  selected None row = true ->
  prefix "expo-" (platform row) = true /\ is_active row = true.
Proof. unfold selected. rewrite !andb_true_iff. tauto. Qed.

(** The messages a list of recipients causes: each for one listed user, to
    a non-empty set of that user's selected rows. *)
Lemma users_posts env r ids w :
  exists results new w',
    for_of ids (fun user => sendToUser env user r) w = (Returns results, w')
    /\ fcm_tokens w' = fcm_tokens w
    /\ calls w' = calls w ++ new
    /\ Forall
         (fun m =>
            msg_to m <> []
            /\ forall tok,
                 In tok (msg_to m) ->
                 exists user row,
                   In user ids /\ In row (fcm_tokens w) /\ token row = tok
                   /\ selected (Some user) row = true)
         (posts new).
Proof.
  revert w; induction ids as [|user ids IH]; intro w.
  - exists [], [], w. simpl. rewrite app_nil_r. repeat split; constructor.
  - destruct (sendToUser_effects env user r w)
      as (result & ds & w1 & H1 & Ht1 & _ & _ & Hcase).
    destruct (IH w1) as (results & new2 & w2 & H2 & Ht2 & Hc2 & Hp2).
    assert (Hhead : exists new1,
               calls w1 = calls w ++ new1
               /\ Forall
                    (fun m =>
                       msg_to m <> []
                       /\ forall tok,
                            In tok (msg_to m) ->
                            exists user' row,
                              In user' (user :: ids) /\ In row (fcm_tokens w)
                              /\ token row = tok
                              /\ selected (Some user') row = true)
                    (posts new1)).
    { destruct Hcase as [(_ & _ & Hc) | (Hne & _ & Hc)].
      - eexists. split; [exact Hc|]. constructor.
      - eexists. split; [exact Hc|].
        simpl. rewrite posts_inserts. constructor; [|constructor].
        simpl. split.
        + destruct (queried env w (Some user)); [congruence | discriminate].
        + intros tok Hin. apply in_map_iff in Hin.
          destruct Hin as (row & Htok & Hrow).
          apply queried_selected in Hrow. destruct Hrow as (Hrow & Hsel).
          exists user, row. repeat split; auto using in_eq. }
    destruct Hhead as (new1 & Hc1 & Hp1).
    exists (result :: results), (new1 ++ new2), w2.
    split.
    { simpl. unfold bind at 1. rewrite H1. unfold bind at 1. rewrite H2.
      reflexivity. }
    split; [congruence|].
    split; [rewrite Hc2, Hc1, app_assoc; reflexivity|].
    rewrite posts_app. apply Forall_app. split; [exact Hp1|].
    eapply Forall_impl; [|exact Hp2].
    intros m (Hne & Htoks). split; [exact Hne|].
    intros tok Hin. destruct (Htoks tok Hin) as (u & row & Hu & Hrow & Ht & Hs).
    exists u, row. rewrite <- Ht1. repeat split; auto. right; exact Hu.
Qed.

(** X2. Every message the handler posts is addressed to at least one token,
    and each token it is addressed to is the token of a Token Store row that
    is active and whose platform starts with "expo-".  Unless the request is
    a broadcast, that row belongs to the user the request names (its userId,
    or a member of its userIds). *)
Theorem handler_addresses_selected_tokens env req r w :
  json req = Returns r ->
  exists new,
    calls (snd (handler env req w)) = calls w ++ new
    /\ forall m,
         In m (posts new) ->
         msg_to m <> []
         /\ forall tok,
              In tok (msg_to m) ->
              exists row,
                In row (fcm_tokens w) /\ token row = tok
                /\ is_active row = true
                /\ prefix "expo-" (platform row) = true
                /\ (when_truthy (topic r) = None ->
                    when_truthy (userId r) = Some (user_id row)
                    \/ exists ids,
                         userIds r = Some ids /\ In (user_id row) ids).
Proof.
  intro Hj.
  assert (Idle : handler env req w = (Returns (rejection no_recipient), w)
                 \/ method req = "OPTIONS" ->
                 exists new,
                   calls (snd (handler env req w)) = calls w ++ new
                   /\ forall m, In m (posts new) ->
                        msg_to m <> []
                        /\ forall tok, In tok (msg_to m) ->
                             exists row,
                               In row (fcm_tokens w) /\ token row = tok
                               /\ is_active row = true
                               /\ prefix "expo-" (platform row) = true
                               /\ (when_truthy (topic r) = None ->
                                   when_truthy (userId r) = Some (user_id row)
                                   \/ exists ids,
                                        userIds r = Some ids
                                        /\ In (user_id row) ids)).
  { intros [H|H]; [|apply (handler_options env req w) in H];
      rewrite H; exists []; simpl; rewrite app_nil_r;
      (split; [reflexivity | intros m []]). }
  destruct (string_dec (method req) "OPTIONS") as [Hm|Hm]; [auto|].
  destruct (when_truthy (topic r)) as [t|] eqn:Et.
  { destruct (sendToAllUsers_effects env r w)
      as (result & w' & H & _ & _ & [(_ & _ & Hc & _) | (Hne & _ & Hc)]);
      rewrite (handler_topic env req r t result w w' Hm Hj Et H); simpl;
      eexists; (split; [exact Hc|]); simpl; intros m Hin;
      [contradiction|].
    destruct Hin as [<-|[]]. simpl. split.
    - destruct (queried env w None); [congruence | discriminate].
    - intros tok Hin. apply in_map_iff in Hin.
      destruct Hin as (row & Htok & Hrow).
      apply queried_selected in Hrow. destruct Hrow as (Hrow & Hsel).
      apply selected_any in Hsel. destruct Hsel as (Hp & Ha).
      exists row. repeat split; auto. discriminate. }
  destruct (when_truthy (userId r)) as [u|] eqn:Eu.
  { destruct (sendToUser_effects env u r w)
      as (result & ds & w' & H & _ & _ & _ & [(_ & _ & Hc) | (Hne & _ & Hc)]);
      rewrite (handler_user env req r u result w w' Hm Hj Et Eu H); simpl;
      eexists; (split; [exact Hc|]); simpl; intros m Hin;
      [contradiction|].
    rewrite posts_inserts in Hin. destruct Hin as [<-|[]]. simpl. split.
    - destruct (queried env w (Some u)); [congruence | discriminate].
    - intros tok Hin. apply in_map_iff in Hin.
      destruct Hin as (row & Htok & Hrow).
      apply queried_selected in Hrow. destruct Hrow as (Hrow & Hsel).
      apply selected_user in Hsel. destruct Hsel as (Hu & Hp & Ha).
      exists row. repeat split; auto. intros _. left. congruence. }
  destruct (userIds r) as [[|u us]|] eqn:El.
  - apply Idle. left. apply (handler_nobody env req r w Hm Hj).
    unfold has_recipient. rewrite Et, Eu, El. reflexivity.
  - destruct (users_posts env r (u :: us) w)
      as (results & new & w' & H & _ & Hc & Hp).
    rewrite (handler_users env req r u us results w w' Hm Hj Et Eu El H).
    exists new. split; [exact Hc|].
    rewrite Forall_forall in Hp. intros m Hin.
    destruct (Hp m Hin) as (Hne & Htoks). split; [exact Hne|].
    intros tok Htok.
    destruct (Htoks tok Htok) as (user & row & Hu & Hrow & Ht & Hsel).
    apply selected_user in Hsel. destruct Hsel as (Hid & Hpre & Hact).
    exists row. repeat split; auto.
    intros _. right. exists (u :: us). split; [reflexivity|]. congruence.
  - apply Idle. left. apply (handler_nobody env req r w Hm Hj).
    unfold has_recipient. rewrite Et, Eu, El. reflexivity.
Qed.

Lemma handler_addresses_selected_tokens_witness :
  exists new,
    calls (snd (handler Sample.all_ok
                  (post (Sample.to_users ["u2"; "u3"])) Sample.world))
    = calls Sample.world ++ new
    /\ map msg_to (posts new) = [["ExponentPushToken[c]"]].
Proof.
  destruct (handler_addresses_selected_tokens Sample.all_ok
              (post (Sample.to_users ["u2"; "u3"]))
              (Sample.to_users ["u2"; "u3"]) Sample.world eq_refl)
    as (new & Hc & _).
  exists new. split; [exact Hc|].
  cbn in Hc. subst new. reflexivity.
Defined.

(** A request for one user whose token query is served, call by call. *)
Lemma handler_one_user env req r u w :
  method req <> "OPTIONS" ->
  json req = Returns r ->
  when_truthy (topic r) = None ->
  userId r = Some u -> u <> "" ->
  store env (length (calls w)) = Serves ->
  let rows := filter (selected (Some u)) (fcm_tokens w) in
  (rows = [] ->
   handler env req w
   = (Returns (summary [failure "No active tokens for user"]),
      issue (TokenQuery (Some u)) w))
  /\ (rows <> [] ->
      exists result ds w',
        handler env req w = (Returns (summary [result]), w')
        /\ calls w'
           = calls w
             ++ TokenQuery (Some u)
             :: ProviderPost (build_message (map token rows) r)
             :: map DeliveryInsert ds
        /\ notification_deliveries w'
           = notification_deliveries w
             ++ stored_rows env (S (S (length (calls w))))
                  (map DeliveryInsert ds)
        /\ map delivery_platform ds = map platform rows
        /\ Forall (fun d => status d
                            = if success result then "sent" else "failed") ds).
Proof.
  intros Hm Hj Ht Hu Hne Hs rows.
  assert (Eu : when_truthy (userId r) = Some u)
    by (rewrite Hu; apply when_truthy_nonempty, Hne).
  assert (Eq : queried env w (Some u) = rows)
    by (unfold queried; rewrite Hs; reflexivity).
  split.
  - intro E. rewrite <- Eq in E.
    eapply handler_user; eauto.
    unfold sendToUser, try_catch, bind, select_tokens.
    unfold queried in E. rewrite Hs in *. simpl. rewrite E. reflexivity.
  - intro N.
    destruct (sendToUser_effects env u r w)
      as (result & ds & w' & H & _ & Hd & HF & [(E & _) | (_ & _ & Hc)]);
      [rewrite Eq in E; contradiction|].
    rewrite Eq in *.
    exists result, ds, w'.
    split; [eapply handler_user; eauto|].
    do 2 (split; [assumption|]).
    split.
    + clear - HF. induction HF as [|row d rows' ds' (time & ->) _ IH]; simpl;
        [reflexivity | rewrite IH; reflexivity].
    + clear - HF. induction HF as [|row d rows' ds' (time & ->) _ IH];
        constructor; [reflexivity | exact IH].
Qed.

(** X3. A request for one user (non-empty userId, no usable topic) whose
    token query is served issues that query first; with no selected row for
    the user the single result is "No active tokens for user" and nothing
    else is called; otherwise exactly one message is posted, addressed to
    the tokens of all the user's selected rows, and after it one Delivery
    Log insert per selected row is issued, in order, each with that row's
    platform and all with the same status.  The log gains the rows of those
    inserts that the database stored, and nothing else. *)
Theorem handler_single_user env req r u w :
  method req <> "OPTIONS" ->
  json req = Returns r ->
  when_truthy (topic r) = None ->
  userId r = Some u -> u <> "" ->
  store env (length (calls w)) = Serves ->
  let rows := filter (selected (Some u)) (fcm_tokens w) in
  (rows = [] ->
   handler env req w
   = (Returns (summary [failure "No active tokens for user"]),
      issue (TokenQuery (Some u)) w))
  /\ (rows <> [] ->
      exists result ds w',
        handler env req w = (Returns (summary [result]), w')
        /\ calls w'
           = calls w
             ++ TokenQuery (Some u)
             :: ProviderPost (build_message (map token rows) r)
             :: map DeliveryInsert ds
        /\ map delivery_platform ds = map platform rows
        /\ Forall (fun d => status d
                            = if success result then "sent" else "failed") ds
        /\ notification_deliveries w'
           = notification_deliveries w
             ++ stored_rows env (S (S (length (calls w))))
                  (map DeliveryInsert ds)).
Proof.
  intros Hm Hj Ht Hu Hne Hs rows.
  destruct (handler_one_user env req r u w Hm Hj Ht Hu Hne Hs) as (Hnone & Hsome).
  split; [exact Hnone|].
  intro N. destruct (Hsome N) as (result & ds & w' & H & Hc & Hd & Hp & Hst).
  exists result, ds, w'. auto.
Qed.

Lemma handler_single_user_witness :
  exists result ds w',
    handler (Sample.log_down_at 2) (post (Sample.to_user "u1")) Sample.world
    = (Returns (summary [result]), w')
    /\ calls w'
       = TokenQuery (Some "u1")
         :: ProviderPost
              (build_message ["ExponentPushToken[a]"; "ExponentPushToken[b]"]
                 (Sample.to_user "u1"))
         :: map DeliveryInsert ds
    /\ map delivery_platform ds = ["expo-ios"; "expo-android"]
    /\ map delivery_platform (notification_deliveries w') = ["expo-android"].
Proof.
  destruct (proj2 (handler_single_user (Sample.log_down_at 2)
                     (post (Sample.to_user "u1"))
                     (Sample.to_user "u1") "u1" Sample.world
                     ltac:(discriminate) eq_refl eq_refl eq_refl
                     ltac:(discriminate) eq_refl)
              ltac:(discriminate))
    as (result & ds & w' & H & Hc & Hp & _ & Hd).
  exists result, ds, w'. do 3 (split; [assumption|]).
  rewrite Hd. destruct ds as [|d1 [|d2 [|d3 ds]]]; try discriminate Hp.
  injection Hp as _ Hp2. cbn. rewrite Hp2. reflexivity.
Defined.

(** X4. When the provider cannot be reached, answers with something that is
    not JSON, or answers with a failure status, [sendToUser] does not retry
    and does not throw: after the query it posts once, returns the failure
    with the provider's message, and issues one Delivery Log insert per
    queried token, each with status "failed", that message and no message
    id.  The log gains the rows of those inserts that the database stored. *)
Theorem provider_failure_is_logged env user r w msg :
  queried env w (Some user) <> [] ->
  (provider env (S (length (calls w))) = NetworkError msg
   \/ (exists ok, provider env (S (length (calls w))) = Reply ok (NotJson msg))
   \/ (exists m d,
         provider env (S (length (calls w))) = Reply false (Json m d)
         /\ msg = js_or truthy_string m "Unknown Expo error")) ->
  exists ds w',
    sendToUser env user r w = (Returns (failure msg), w')
    /\ calls w'
       = calls w
         ++ TokenQuery (Some user)
         :: ProviderPost
              (build_message (map token (queried env w (Some user))) r)
         :: map DeliveryInsert ds
    /\ length ds = length (queried env w (Some user))
    /\ Forall (fun d => status d = "failed"
                        /\ error_message d = Some msg
                        /\ expo_message_id (metadata d) = None) ds
    /\ notification_deliveries w'
       = notification_deliveries w
         ++ stored_rows env (S (S (length (calls w)))) (map DeliveryInsert ds).
Proof.
  intros N Hp.
  assert (Hv : verdict (provider env (S (length (calls w)))) = failure msg).
  { destruct Hp as [-> | [(ok & ->) | (m & d & -> & ->)]];
      try reflexivity. destruct ok; reflexivity. }
  destruct (sendToUser_effects env user r w)
    as (result & ds & w' & H & _ & Hd & HF & [(E & _) | (_ & Hr & Hc)]);
    [contradiction|].
  rewrite Hv in Hr. subst result.
  exists ds, w'. split; [exact H|]. split; [exact Hc|].
  split; [|split; [|exact Hd]].
  - clear - HF. induction HF; simpl; congruence.
  - clear - HF. induction HF as [|row d rows' ds' (time & ->) _ IH];
      constructor; [repeat split; reflexivity | exact IH].
Qed.

Lemma provider_failure_is_logged_witness :
  exists ds w',
    sendToUser (Sample.env_with (NetworkError "connection refused")) "u1"
      (Sample.to_user "u1") Sample.world
    = (Returns (failure "connection refused"), w')
    /\ inserts (calls w') = ds
    /\ length ds = 2
    /\ notification_deliveries w' = ds.
Proof.
  destruct (provider_failure_is_logged
              (Sample.env_with (NetworkError "connection refused")) "u1"
              (Sample.to_user "u1") Sample.world "connection refused"
              ltac:(discriminate) (or_introl eq_refl))
    as (ds & w' & H & Hc & Hl & _ & Hd).
  exists ds, w'. split; [exact H|].
  split; [rewrite Hc; cbn; apply inserts_map|].
  split; [exact Hl|].
  rewrite Hd. cbn [notification_deliveries Sample.world app].
  rewrite stored_rows_all by reflexivity. apply inserts_map.
Defined.

(** X5. A broadcast whose token query fails posts nothing and logs nothing:
    the handler still answers 200, with the single failure result "Failed to
    fetch tokens" when the store returned an error, and the thrown message
    when the query rejected. *)
Theorem broadcast_store_failure env req r t w :
  method req <> "OPTIONS" ->
  json req = Returns r ->
  topic r = Some t -> t <> "" ->
  store env (length (calls w)) <> Serves ->
  handler env req w
  = (Returns
       {| http_status := 200;
          headers := json_headers;
          response_body :=
            Summary true "Sent 0 notifications, 1 failed"
              [failure
                 match store env (length (calls w)) with
                 | Rejects msg => msg
                 | ReturnsError => "Failed to fetch tokens"
                 | _ => "No active tokens found"
                 end] |},
     issue (TokenQuery None) w).
Proof.
  intros Hm Hj Ht Hne Hs.
  assert (Et : when_truthy (topic r) = Some t)
    by (rewrite Ht; apply when_truthy_nonempty, Hne).
  assert (H : sendToAllUsers env r w
              = (Returns
                   (failure
                      match store env (length (calls w)) with
                      | Rejects msg => msg
                      | ReturnsError => "Failed to fetch tokens"
                      | _ => "No active tokens found"
                      end),
                 issue (TokenQuery None) w)).
  { unfold sendToAllUsers, try_catch, bind, select_tokens.
    destruct (store env (length (calls w))) as [| | |msg]; simpl;
      [congruence | reflexivity | reflexivity | reflexivity]. }
  rewrite (handler_topic env req r t _ w _ Hm Hj Et H). reflexivity.
Qed.

Lemma broadcast_store_failure_witness :
  handler (Sample.store_down_at 0) (post (Sample.to_topic "all_users"))
    Sample.world
  = (Returns
       {| http_status := 200;
          headers := json_headers;
          response_body :=
            Summary true "Sent 0 notifications, 1 failed"
              [failure "Failed to fetch tokens"] |},
     issue (TokenQuery None) Sample.world).
Proof.
  apply (broadcast_store_failure (Sample.store_down_at 0)
           (post (Sample.to_topic "all_users")) (Sample.to_topic "all_users")
           "all_users" Sample.world);
    [discriminate | reflexivity | reflexivity | discriminate | discriminate].
Defined.

(** X25. When the provider answers a user's batch with a success status and
    a ticket list without error ticket, [sendToUser] returns a success whose
    message id is the id of the first ticket ("unknown" when there is no
    first ticket or it has no id or an empty one), and issues one Delivery
    Log insert per token row of the batch, each with status "sent", without
    error message and with that same first message id.  The log gains the
    rows of those inserts that the database stored. *)
Theorem provider_success_is_logged env user r w m ticket_list :
  queried env w (Some user) <> [] ->
  provider env (S (length (calls w))) = Reply true (Json m (Some ticket_list)) ->
  existsb is_error ticket_list = false ->
  let first_id :=
    match ticket_list with
    | t :: _ =>
        match ticket_id t with
        | Some i => if i =? "" then "unknown" else i
        | None => "unknown"
        end
    | [] => "unknown"
    end in
  exists ds w',
    sendToUser env user r w
    = (Returns {| success := true; error := None;
                  messageId := Some first_id;
                  tickets := Some ticket_list |}, w')
    /\ calls w'
       = calls w
         ++ TokenQuery (Some user)
         :: ProviderPost
              (build_message (map token (queried env w (Some user))) r)
         :: map DeliveryInsert ds
    /\ length ds = length (queried env w (Some user))
    /\ Forall (fun d => status d = "sent"
                        /\ error_message d = None
                        /\ expo_message_id (metadata d) = Some first_id) ds
    /\ notification_deliveries w'
       = notification_deliveries w
         ++ stored_rows env (S (S (length (calls w)))) (map DeliveryInsert ds).
Proof.
  intros N Hp He first_id.
  assert (Hv : verdict (provider env (S (length (calls w))))
               = {| success := true; error := None;
                    messageId := Some first_id;
                    tickets := Some ticket_list |}).
  { rewrite Hp. simpl. rewrite He. subst first_id.
    destruct ticket_list as [|t l]; [reflexivity|]. simpl.
    destruct (ticket_id t) as [i|]; [|reflexivity]. simpl.
    unfold truthy_string. destruct (i =? ""); reflexivity. }
  destruct (sendToUser_effects env user r w)
    as (result & ds & w' & H & _ & Hd & HF & [(E & _) | (_ & Hr & Hc)]);
    [contradiction|].
  rewrite Hv in Hr. subst result.
  exists ds, w'. split; [exact H|]. split; [exact Hc|].
  split; [|split; [|exact Hd]].
  - clear - HF. induction HF; simpl; congruence.
  - clear - HF. induction HF as [|row d rows' ds' (time & ->) _ IH];
      constructor; [repeat split; reflexivity | exact IH].
Qed.

Lemma provider_success_is_logged_witness :
  exists ds w',
    sendToUser (Sample.log_down_at 3) "u1" (Sample.to_user "u1") Sample.world
    = (Returns {| success := true; error := None;
                  messageId := Some "t1";
                  tickets := Some [Sample.ok_ticket "t1"; Sample.ok_ticket "t2"] |},
       w')
    /\ inserts (calls w') = ds
    /\ map (fun d => (delivery_platform d, status d)) ds
       = [("expo-ios", "sent"); ("expo-android", "sent")]
    /\ map (fun d => (delivery_platform d, status d))
         (notification_deliveries w')
       = [("expo-ios", "sent")].
Proof.
  destruct (provider_success_is_logged (Sample.log_down_at 3) "u1"
              (Sample.to_user "u1")
              Sample.world None [Sample.ok_ticket "t1"; Sample.ok_ticket "t2"]
              ltac:(discriminate) eq_refl eq_refl)
    as (ds & w' & H & Hc & _ & _ & Hd).
  assert (Hi : inserts (calls w') = ds)
    by (rewrite Hc; cbn; apply inserts_map).
  exists ds, w'. split; [exact H|]. split; [exact Hi|].
  rewrite Hd. clear Hd Hc.
  vm_compute in H. injection H as <-.
  cbn in Hi. subst ds. split; reflexivity.
Defined.

End DispatchMore.

(* ===================================================================== *)
(** ** The realtime trigger listener: the push payload                   *)
(* ===================================================================== *)

Section PayloadFacts.
Import Json Listener.

Lemma lookup_app k (a b : JObject) :
  lookup k (a ++ b)
  = match lookup k a with
    | Some v => Some v
    | None => lookup k b
    end.
Proof.
  induction a as [|[k' v'] a IH]; simpl; [reflexivity|].
  destruct (k =? k'); [reflexivity | exact IH].
Qed.

(** Reading a key after an assignment. *)
Lemma lookup_obj_set k k' v (o : JObject) :
  lookup k (obj_set k' v o) = if k =? k' then Some v else lookup k o.
Proof.
  induction o as [|[k0 v0] o IH]; simpl.
  - destruct (k =? k'); reflexivity.
  - destruct (String.eqb_spec k' k0) as [<-|N]; simpl.
    + destruct (k =? k'); reflexivity.
    + destruct (String.eqb_spec k k0) as [->|N0].
      * destruct (String.eqb_spec k0 k'); [congruence | reflexivity].
      * exact IH.
Qed.

(** Reading a key of [{ ...dst, ...src }]: the last entry of [src] for the
    key, else what [dst] holds. *)
Lemma lookup_obj_spread k (src dst : JObject) :
  lookup k (obj_spread dst src)
  = match lookup k (rev src) with
    | Some v => Some v
    | None => lookup k dst
    end.
Proof.
  unfold obj_spread. revert dst.
  induction src as [|[k0 v0] src IH]; intro dst; simpl; [reflexivity|].
  rewrite IH, lookup_app, lookup_obj_set. simpl.
  destruct (lookup k (rev src)); [reflexivity|].
  destruct (k =? k0); reflexivity.
Qed.

(** X6. The [data] of the listener's invocation body is the event's own
    data laid over [{ notification_id, type }]: a key the event's data sets
    (its last entry for the key) replaces the event's id and type; each
    other key of the event's data is carried along; without such an entry
    [notification_id] and [type] are the event's. *)
Theorem push_payload_merge user n k :
  exists payload,
    lookup "data" (push_body user n) = Some (JObj payload)
    /\ lookup k payload
       = match lookup k (rev (match notification_data n with
                              | Some o => o
                              | None => []
                              end)) with
         | Some v => Some v
         | None =>
             if k =? "notification_id" then Some (JStr (notification_id n))
             else if k =? "type" then Some (JStr (notification_kind n))
             else None
         end.
Proof.
  eexists. split; [reflexivity|].
  rewrite lookup_obj_spread. reflexivity.
Qed.

End PayloadFacts.

(* ===================================================================== *)
(** ** The device registration service: further facts                    *)
(* ===================================================================== *)

Section RegistrationMore.
Import Json Tables Js Registration RegistrationSpec MoreSpec.
Local Open Scope js_scope.

Ltac run_service :=
  unfold initialize, requestPermissions, getExpoPushToken, saveTokenToDatabase,
    setupNotificationListeners, getPermissionsAsync, requestPermissionsAsync,
    getExpoPushTokenAsync, getUser, upsert, addListener, remember, clock,
    try_catch, bind, ret, issue, getToken, isServiceInitialized;
  cbn -[upsert_row keys_unique String.append filter length];
  repeat (expose_case; cbn -[upsert_row keys_unique String.append filter length]).

(** X7. [initialize] returns true exactly when the service was initialised
    already, or the device is physical, the permission is granted (held
    already or given at the prompt), a non-empty project id is configured,
    the SDK hands out a non-empty token and the auth lookup does not reject.
    Whether the token could be saved to the Token Store plays no part. *)
Theorem initialize_succeeds_iff env s :
  fst (initialize env s) = Returns true
  <-> (isInitialized s = true
       \/ (isDevice env = true
           /\ permissions_api_rejects env = None
           /\ (permission s = Granted \/ prompt_answer env = Granted)
           /\ (exists p, projectId env = Some p /\ p <> "")
           /\ (exists t, push_token env = Returns t /\ t <> "")
           /\ (exists u, signed_in env = Returns u))).
Proof.
  destruct s as [init tok perm table log].
  destruct env as [dev rejects answer project pushed user os_ dn ov mn mode time].
  cbn [isInitialized isDevice permissions_api_rejects permission prompt_answer
       projectId push_token signed_in].
  run_service;
    (split;
     [ intro H; try discriminate H;
       first [ left; reflexivity
             | right; repeat split;
               first [ left; reflexivity | right; reflexivity
                     | eexists; split; [reflexivity | discriminate]
                     | eexists; reflexivity ] ]
     | intros [H | (H1 & H2 & [H3|H3] & (p & H4 & H4') & (t & H5 & H5') & (u & H6))];
       try reflexivity; try discriminate; try congruence ]).
Qed.

(** X8. The service keeps the invariant that it holds a non-empty token
    whenever it is initialised: every method preserves it, and after a call
    of [initialize] that returned true [getToken] is a non-empty token. *)
Theorem service_invariant env s :
  consistent s ->
  consistent (snd (initialize env s))
  /\ consistent (snd (requestPermissions env s))
  /\ consistent (snd (getExpoPushToken env s))
  /\ (forall t u, consistent (snd (saveTokenToDatabase env t u s)))
  /\ (fst (initialize env s) = Returns true ->
      exists t, getToken (snd (initialize env s)) = Some t /\ t <> "").
Proof.
  unfold consistent.
  destruct s as [init tok perm table log].
  destruct env as [dev rejects answer project pushed user os_ dn ov mn mode time].
  cbn [isInitialized expoPushToken]. intro C.
  repeat split; try (intros t u);
    run_service;
    first [ exact C
          | intro H; discriminate H
          | intros _; eexists; split; [reflexivity | discriminate]
          | intros _; apply C; reflexivity
          | idtac ].
Qed.

Lemma service_invariant_witness :
  exists t,
    getToken (snd (initialize Sample.phone Sample.fresh)) = Some t /\ t <> "".
Proof.
  refine (proj2 (proj2 (proj2 (proj2
            (service_invariant Sample.phone Sample.fresh _)))) eq_refl).
  intro H; discriminate H.
Defined.

(** One call of [initialize] keeps: no listener was added while the service
    is uninitialised, and at most one of each kind was added in all. *)
Lemma initialize_listeners received env s :
  (isInitialized s = false ->
   filter (is_listener received) (sdk_calls s) = []) ->
  length (filter (is_listener received) (sdk_calls s)) <= 1 ->
  (isInitialized (snd (initialize env s)) = false ->
   filter (is_listener received) (sdk_calls (snd (initialize env s))) = [])
  /\ length (filter (is_listener received)
               (sdk_calls (snd (initialize env s)))) <= 1.
Proof.
  destruct s as [init tok perm table log].
  destruct env as [dev rejects answer project pushed user os_ dn ov mn mode time].
  cbn [isInitialized sdk_calls]. intros H0 H2.
  run_service;
    rewrite ?filter_app, ?length_app;
    destruct received; cbn [filter is_listener length app];
    rewrite ?app_nil_r;
    (split; [first [exact H0 | intro D; discriminate D] |]);
    try exact H2;
    rewrite (H0 eq_refl); simpl; lia.
Qed.

(** X9. Starting from an uninitialised service that has added no listener,
    [initialize] calls made one after the other, each awaited before the
    next is made, under whatever devices, users and backends, add the
    foreground listener at most once and the tap listener at most once.
    (Calls that overlap are outside this statement.) *)
Theorem listeners_added_at_most_once received envs s :
  isInitialized s = false ->
  filter (is_listener received) (sdk_calls s) = [] ->
  length (filter (is_listener received) (sdk_calls (initialize_in_turn envs s)))
  <= 1.
Proof.
  intros Hi Hl.
  assert (G : forall c,
             (isInitialized c = false ->
              filter (is_listener received) (sdk_calls c) = []) ->
             length (filter (is_listener received) (sdk_calls c)) <= 1 ->
             length (filter (is_listener received)
                       (sdk_calls (initialize_in_turn envs c))) <= 1).
  { induction envs as [|e envs IH]; intros c H0 H2; simpl; [exact H2|].
    destruct (initialize_listeners received e c H0 H2) as (H0' & H2').
    apply IH; assumption. }
  apply G; [intros _; exact Hl | rewrite Hl; simpl; lia].
Qed.

Lemma listeners_added_at_most_once_witness :
  length (filter (is_listener true)
            (sdk_calls (initialize_in_turn
                          [Sample.refusing; Sample.phone; Sample.phone]
                          Sample.fresh)))
  <= 1.
Proof.
  apply (listeners_added_at_most_once true
           [Sample.refusing; Sample.phone; Sample.phone] Sample.fresh);
    reflexivity.
Defined.

(** X10. A call of [initialize] only adds to the calls issued.  On a device
    that is not physical it issues none.  It prompts for the permission at
    most once, and not at all when the permission is already granted or the
    service is already initialised. *)
Theorem initialize_prompts env s :
  exists new,
    sdk_calls (snd (initialize env s)) = sdk_calls s ++ new
    /\ length (filter is_prompt new) <= 1
    /\ (permission s = Granted -> filter is_prompt new = [])
    /\ (isInitialized s = true -> new = [])
    /\ (isDevice env = false -> new = []).
Proof.
  destruct s as [init tok perm table log].
  destruct env as [dev rejects answer project pushed user os_ dn ov mn mode time].
  cbn [isInitialized sdk_calls permission isDevice].
  run_service;
    rewrite <- ?app_assoc; cbn [app];
    first [ exists []; rewrite app_nil_r; repeat split; simpl; auto; fail
          | eexists; split; [reflexivity|];
            repeat split; simpl; auto; intro D; discriminate D ].
Qed.

(** X11. When the auth lookup rejects after the token was obtained,
    [initialize] returns false although it has already marked the service
    initialised: the token is cached, nothing is saved and no listener is
    added, and every later call returns true without doing anything. *)
Theorem initialize_after_rejected_auth env s p t msg :
  isInitialized s = false ->
  isDevice env = true ->
  permissions_api_rejects env = None ->
  permission s = Granted \/ prompt_answer env = Granted ->
  projectId env = Some p -> p <> "" ->
  push_token env = Returns t -> t <> "" ->
  signed_in env = Throws msg ->
  let s1 := snd (initialize env s) in
  fst (initialize env s) = Returns false
  /\ isServiceInitialized s1 = true
  /\ getToken s1 = Some t
  /\ fcm_tokens s1 = fcm_tokens s
  /\ (forall received,
        filter (is_listener received) (sdk_calls s1)
        = filter (is_listener received) (sdk_calls s))
  /\ forall env', initialize env' s1 = (Returns true, s1).
Proof.
  destruct s as [init tok perm table log].
  destruct env as [dev rejects answer project pushed user os_ dn ov mn mode time].
  cbn [isInitialized isDevice permissions_api_rejects permission prompt_answer
       projectId push_token signed_in].
  intros -> -> -> Hperm -> Hp -> Ht ->.
  assert (Ep : when_truthy (Some p) = Some p).
  { simpl. unfold truthy_string. apply String.eqb_neq in Hp. rewrite Hp.
    reflexivity. }
  assert (Et : when_truthy (Some t) = Some t).
  { simpl. unfold truthy_string. apply String.eqb_neq in Ht. rewrite Ht.
    reflexivity. }
  unfold initialize, requestPermissions, getExpoPushToken,
    getPermissionsAsync, requestPermissionsAsync, getExpoPushTokenAsync,
    getUser, remember, try_catch, bind, ret, issue, getToken,
    isServiceInitialized.
  cbn -[when_truthy filter].
  destruct Hperm as [-> | ->]; [|destruct perm];
    cbn -[when_truthy filter]; rewrite Ep; cbn -[when_truthy filter];
    rewrite Et; cbn -[filter];
    repeat split; try intros [|];
    rewrite ?filter_app; cbn [filter is_listener]; rewrite ?app_nil_r;
    reflexivity.
Qed.

Lemma initialize_after_rejected_auth_witness :
  fst (initialize MoreSpec.auth_down Sample.fresh) = Returns false
  /\ fst (initialize MoreSpec.auth_down
            (snd (initialize MoreSpec.auth_down Sample.fresh)))
     = Returns true.
Proof.
  destruct (initialize_after_rejected_auth MoreSpec.auth_down Sample.fresh
              "project-1" "ExponentPushToken[a]" "network request failed"
              eq_refl eq_refl eq_refl (or_intror eq_refl)
              eq_refl ltac:(discriminate) eq_refl ltac:(discriminate) eq_refl)
    as (H1 & _ & _ & _ & _ & H2).
  split; [exact H1|]. rewrite (H2 MoreSpec.auth_down). reflexivity.
Defined.

Lemma initialize_succeeds_iff_witness :
  fst (initialize Sample.phone Sample.fresh) = Returns true
  /\ fst (initialize Sample.refusing Sample.fresh) <> Returns true.
Proof.
  split.
  - apply (proj2 (initialize_succeeds_iff Sample.phone Sample.fresh)).
    right. repeat split;
      [right; reflexivity
      | eexists; split; [reflexivity | discriminate]
      | eexists; split; [reflexivity | discriminate]
      | eexists; reflexivity].
  - intro H.
    apply (proj1 (initialize_succeeds_iff Sample.refusing Sample.fresh)) in H.
    destruct H as [H | (_ & _ & [H|H] & _)]; discriminate H.
Defined.

Lemma initialize_prompts_witness :
  exists new,
    sdk_calls (snd (initialize Sample.refusing Sample.fresh)) = new
    /\ length (filter is_prompt new) <= 1.
Proof.
  destruct (initialize_prompts Sample.refusing Sample.fresh)
    as (new & Hc & Hp & _).
  exists new. split; [exact Hc | exact Hp].
Defined.

Lemma upsert_row_present r table : In r (upsert_row r table).
Proof.
  induction table as [|x table IH]; simpl; [left; reflexivity|].
  destruct (same_key r x); [left; reflexivity | right; exact IH].
Qed.

(** X12. When [saveTokenToDatabase] writes, it returns true and the Token
    Store holds an active row for that user and token whose platform starts
    with "expo-": the next single-user dispatch to that user, over this
    store, posts one message, and the token is among its addressees. *)
Theorem saved_token_is_addressed env tok user s denv req r :
  upsert_mode env = Written ->
  user <> "" ->
  Dispatch.method req <> "OPTIONS" ->
  Dispatch.json req = Returns r ->
  when_truthy (Dispatch.topic r) = None ->
  Dispatch.userId r = Some user ->
  Dispatch.store denv 0 = Dispatch.Serves ->
  let s' := snd (saveTokenToDatabase env tok user s) in
  fst (saveTokenToDatabase env tok user s) = Returns true
  /\ exists m,
       DispatchSpec.posts
         (Dispatch.calls (snd (Dispatch.handler denv req (server_world s'))))
       = [m]
       /\ In tok (Dispatch.msg_to m).
Proof.
  intros Hw Hu Hm Hj Ht Hid Hs s'.
  assert (Hrun : fst (saveTokenToDatabase env tok user s) = Returns true
                 /\ exists row,
                      In row (fcm_tokens s')
                      /\ token row = tok
                      /\ Dispatch.selected (Some user) row = true).
  { subst s'.
    unfold saveTokenToDatabase, upsert, clock, try_catch, bind, ret, issue.
    rewrite Hw. cbn -[upsert_row String.append].
    split; [reflexivity|].
    eexists. split; [apply upsert_row_present|].
    split; [reflexivity|].
    unfold Dispatch.selected. cbn -[String.eqb].
    rewrite String.eqb_refl. destruct (os env); reflexivity. }
  destruct Hrun as (Hret & row & Hin & Htok & Hsel).
  split; [exact Hret|].
  assert (Hrows : In row (filter (Dispatch.selected (Some user))
                            (Dispatch.fcm_tokens (server_world s'))))
    by (apply filter_In; split; assumption).
  destruct (proj2 (handler_one_user denv req r user (server_world s')
                     Hm Hj Ht Hid Hu Hs))
    as (result & ds & w' & H & Hc & _).
  { intro E. rewrite E in Hrows. contradiction. }
  rewrite H. cbn [snd]. rewrite Hc.
  change (Dispatch.calls (server_world s')) with (@nil Dispatch.NetCall).
  cbn [app].
  assert (P : forall m l,
             DispatchSpec.posts
               (Dispatch.TokenQuery (Some user)
                  :: Dispatch.ProviderPost m :: map Dispatch.DeliveryInsert l)
             = [m])
    by (intros; simpl; rewrite posts_inserts; reflexivity).
  rewrite P.
  eexists. split; [reflexivity|].
  cbn [Dispatch.msg_to Dispatch.build_message].
  rewrite <- Htok. apply in_map. exact Hrows.
Qed.

Lemma saved_token_is_addressed_witness :
  exists m,
    DispatchSpec.posts
      (Dispatch.calls
         (snd (Dispatch.handler Sample.all_ok
                 (DispatchSpec.post (Sample.to_user "u9"))
                 (server_world
                    (snd (saveTokenToDatabase Sample.phone
                            "ExponentPushToken[z]" "u9" Sample.fresh))))))
    = [m]
    /\ In "ExponentPushToken[z]" (Dispatch.msg_to m).
Proof.
  refine (proj2 (saved_token_is_addressed Sample.phone "ExponentPushToken[z]"
                   "u9" Sample.fresh Sample.all_ok
                   (DispatchSpec.post (Sample.to_user "u9"))
                   (Sample.to_user "u9")
                   eq_refl _ _ eq_refl eq_refl eq_refl eq_refl));
    discriminate.
Defined.

End RegistrationMore.

(* ===================================================================== *)
(** ** Local reminders                                                   *)
(* ===================================================================== *)

Section SchedulingFacts.
Import Js Scheduling.
Local Open Scope js_scope.

(** The reminder [scheduleCleaningNotification] asks for. *)
Lemma reminder_time t :
  (- max_time + 3600000 <= t <= max_time)%Z ->
  new_Date (getTime_minus (Some t) (60 * 60 * 1000)) = Some (t - 3600000)%Z.
Proof.
  intro H. unfold new_Date, getTime_minus.
  change (60 * 60 * 1000)%Z with 3600000%Z.
  destruct (Z.leb_spec (Z.abs (t - 3600000)) max_time) as [_|N];
    [reflexivity|].
  unfold max_time in *. lia.
Qed.

(** X13. For a due date [t] that is a valid date, one hour or more above
    the smallest one: when the time one hour before [t] is not after the
    current time, [scheduleCleaningNotification] does nothing at all;
    otherwise it asks the SDK once for a reminder that names the equipment
    and triggers exactly one hour before [t], and that reminder is scheduled
    unless the SDK rejects, in which case nothing is thrown. *)
Theorem cleaning_reminder_is_one_hour_before env data t s :
  nextCleaningDue data = Some t ->
  (- max_time + 3600000 <= t <= max_time)%Z ->
  let reminder :=
    {| content_title := "Clean Beats Reminder";
       content_body :=
         ("Time to clean your " ++ equipmentName data
            ++ "! Cleaning is due in 1 hour.")%string;
       content_sound := "default";
       trigger_date := Some (t - 3600000)%Z |} in
  ((t - 3600000 <= current_time env)%Z ->
   scheduleCleaningNotification env data s = (Returns tt, s))
  /\ ((current_time env < t - 3600000)%Z ->
      scheduleCleaningNotification env data s
      = (Returns tt,
         {| scheduled :=
              match schedule_rejects env reminder with
              | Some _ => scheduled s
              | None => scheduled s ++ [reminder]
              end;
            tray_calls := tray_calls s ++ [ScheduleNotification reminder] |})).
Proof.
  intros Hd Hr reminder.
  unfold scheduleCleaningNotification. rewrite Hd, (reminder_time t Hr).
  unfold date_le. split; intro H.
  - apply Z.leb_le in H. rewrite H. reflexivity.
  - apply Z.leb_gt in H. rewrite H.
    unfold scheduleLocalNotification, scheduleNotificationAsync, try_catch.
    fold reminder. destruct (schedule_rejects env reminder); reflexivity.
Qed.

Lemma cleaning_reminder_is_one_hour_before_witness :
  scheduleCleaningNotification (MoreSpec.tray_env 1700000000000)
    (MoreSpec.mop (Some 1700003600000%Z)) MoreSpec.empty_tray
  = (Returns tt, MoreSpec.empty_tray)
  /\ map trigger_date
       (scheduled
          (snd (scheduleCleaningNotification (MoreSpec.tray_env 1700000000000)
                  (MoreSpec.mop (Some 1700003600001%Z)) MoreSpec.empty_tray)))
     = [Some 1700000000001%Z].
Proof.
  split.
  - apply (proj1 (cleaning_reminder_is_one_hour_before
                    (MoreSpec.tray_env 1700000000000)
                    (MoreSpec.mop (Some 1700003600000%Z)) 1700003600000
                    MoreSpec.empty_tray eq_refl
                    ltac:(unfold max_time; lia))).
    simpl. lia.
  - rewrite (proj2 (cleaning_reminder_is_one_hour_before
                      (MoreSpec.tray_env 1700000000000)
                      (MoreSpec.mop (Some 1700003600001%Z)) 1700003600001
                      MoreSpec.empty_tray eq_refl
                      ltac:(unfold max_time; lia))
               ltac:(simpl; lia)).
    reflexivity.
Defined.

(** X14. A due date that is not a valid date, or lies less than one hour
    above the smallest date, does not end [scheduleCleaningNotification]
    early: the comparison with the current time is false, and the SDK is
    asked to schedule the reminder with an invalid trigger date. *)
Theorem invalid_due_date_is_still_scheduled env data s :
  (nextCleaningDue data = None
   \/ exists t, nextCleaningDue data = Some t
                /\ (t < - max_time + 3600000)%Z) ->
  exists s',
    scheduleCleaningNotification env data s = (Returns tt, s')
    /\ tray_calls s'
       = tray_calls s
         ++ [ScheduleNotification
               {| content_title := "Clean Beats Reminder";
                  content_body :=
                    ("Time to clean your " ++ equipmentName data
                       ++ "! Cleaning is due in 1 hour.")%string;
                  content_sound := "default";
                  trigger_date := None |}].
Proof.
  intro H.
  assert (E : new_Date (getTime_minus (nextCleaningDue data) (60 * 60 * 1000))
              = None).
  { destruct H as [-> | (t & -> & Ht)]; [reflexivity|].
    unfold new_Date, getTime_minus.
    change (60 * 60 * 1000)%Z with 3600000%Z.
    destruct (Z.leb_spec (Z.abs (t - 3600000)) max_time) as [N|_];
      [|reflexivity].
    unfold max_time in *. lia. }
  unfold scheduleCleaningNotification. rewrite E. cbn [date_le].
  unfold scheduleLocalNotification, scheduleNotificationAsync, try_catch.
  match goal with |- context [schedule_rejects env ?n] =>
    destruct (schedule_rejects env n) end;
    eexists; split; reflexivity.
Qed.

Lemma invalid_due_date_is_still_scheduled_witness :
  exists s',
    scheduleCleaningNotification (MoreSpec.tray_env 1700000000000)
      (MoreSpec.mop None) MoreSpec.empty_tray
    = (Returns tt, s')
    /\ map trigger_date (scheduled s') = [None].
Proof.
  destruct (invalid_due_date_is_still_scheduled
              (MoreSpec.tray_env 1700000000000) (MoreSpec.mop None)
              MoreSpec.empty_tray (or_introl eq_refl))
    as (s' & H & _).
  exists s'. split; [exact H|].
  vm_compute in H. injection H as <-. reflexivity.
Defined.

(** X15. [cancelNotification] does not look at the equipment it is given:
    unless the SDK rejects, it leaves no scheduled notification at all, also
    none of those scheduled for other equipment; when the SDK rejects,
    nothing is thrown and the scheduled notifications stay. *)
Theorem cancelNotification_cancels_everything env equipment s :
  exists s',
    cancelNotification env equipment s = (Returns tt, s')
    /\ tray_calls s' = tray_calls s ++ [CancelAllScheduled]
    /\ (cancel_rejects env = None -> scheduled s' = [])
    /\ (cancel_rejects env <> None -> scheduled s' = scheduled s).
Proof.
  unfold cancelNotification, cancelAllScheduledNotifications,
    cancelAllScheduledNotificationsAsync, try_catch.
  destruct (cancel_rejects env); eexists; repeat split; simpl;
    congruence.
Qed.

Lemma cancelNotification_cancels_everything_witness :
  scheduled
    (snd (cancelNotification (MoreSpec.tray_env 0) "e1"
            (snd (scheduleCleaningNotification (MoreSpec.tray_env 0)
                    {| equipmentId := "e2"; equipmentName := "sponge";
                       nextCleaningDue := Some 7200000%Z |}
                    (snd (scheduleCleaningNotification (MoreSpec.tray_env 0)
                            (MoreSpec.mop (Some 7200000%Z))
                            MoreSpec.empty_tray))))))
  = [].
Proof.
  match goal with |- scheduled (snd (cancelNotification ?e ?q ?s)) = _ =>
    destruct (cancelNotification_cancels_everything e q s)
      as (s' & H & _ & Hn & _);
    rewrite H; exact (Hn eq_refl)
  end.
Defined.

End SchedulingFacts.

(* ===================================================================== *)
(** ** The app side                                                      *)
(* ===================================================================== *)

Section AppFacts.
Import Json Tables Js Listener Registration RegistrationSpec MoreSpec.
Local Open Scope js_scope.

Ltac run_app :=
  unfold App.notification_sendTestNotification, App.hook_sendTestNotification,
    App.initializeNotifications, App.requestPermissions, App.showNotification,
    App.initializePushNotifications, App.sendTestNotification,
    App.checkPermissions,
    App.getUser, App.clock, App.invoke, App.insert_notification, App.service,
    App.toast, App.setHasPermission, App.with_client, App.has_token,
    initialize, requestPermissions, getExpoPushToken, saveTokenToDatabase,
    setupNotificationListeners, getPermissionsAsync, requestPermissionsAsync,
    getExpoPushTokenAsync, getUser, upsert, addListener, remember, clock,
    try_catch, bind, ret, throw, issue, getToken;
  cbn -[upsert_row keys_unique String.append filter length obj_spread];
  repeat (expose_case;
          cbn -[upsert_row keys_unique String.append filter length obj_spread]).

(** X16. [ExpoNotificationService.sendTestNotification] never throws.
    Signed out, or when the auth lookup rejects, it returns false without
    invoking anything.  Signed in, it invokes [send-expo-notification]
    exactly once, with the user under the key [userId] and the type "test"
    in the data, and returns true exactly when that invocation resolved
    without an error. *)
Theorem service_sendTestNotification env a :
  exists b a',
    App.sendTestNotification env a = (Returns b, a')
    /\ App.notifications a' = App.notifications a
    /\ App.toasts a' = App.toasts a
    /\ match signed_in (App.device env) with
       | Returns (Some id) =>
           (exists time,
               App.invocations a'
               = App.invocations a
                 ++ [{| function_name := "send-expo-notification";
                        invocation_body := App.test_body id time |}])
           /\ (b = true
               <-> App.functions env (length (App.invocations a))
                   = App.Invoked None)
       | _ => App.invocations a' = App.invocations a /\ b = false
       end.
Proof.
  destruct a as [[init tok perm table log] invs notes hasp tsts].
  destruct env as [[dev rejects answer project pushed user os_ dn ov mn mode time]
                     fns ins].
  cbn [App.device signed_in App.invocations App.notifications App.toasts
       App.functions].
  unfold App.sendTestNotification, App.getUser, App.clock, App.invoke,
    App.service, App.with_client, getUser, clock, try_catch, bind, ret, issue.
  cbn -[length].
  destruct user as [[id|]|msg]; cbn -[length].
  - destruct (fns (length invs)) as [[e|]|msg]; cbn -[length];
      eexists _, _; (split; [reflexivity|]); repeat split;
      try (eexists; reflexivity); try discriminate; try reflexivity;
      intro H; discriminate H.
  - eexists _, _; repeat split.
  - eexists _, _; repeat split.
Qed.

(** X17. The body of the test push reads, in the edge function, as a request
    for the one signed-in user: for a non-empty user id the handler takes
    the single-user path for exactly that user, and the deliveries it logs
    carry the type "test". *)
Theorem test_push_is_a_single_user_request id time :
  exists r,
    Wire.read_request (App.test_body id time) = Some r
    /\ Dispatch.userId r = Some id
    /\ Dispatch.topic r = None
    /\ Dispatch.userIds r = None
    /\ Dispatch.delivery_type r = JStr "test"
    /\ (id <> "" ->
        forall denv w result w',
          Dispatch.sendToUser denv id r w = (Returns result, w') ->
          Dispatch.handler denv (DispatchSpec.post r) w
          = (Returns (Dispatch.summary [result]), w')).
Proof.
  eexists. split; [reflexivity|].
  do 4 (split; [reflexivity|]).
  intros Hid denv w result w' H.
  eapply handler_user; eauto.
  - discriminate.
  - reflexivity.
  - reflexivity.
  - apply when_truthy_nonempty, Hid.
Qed.

Lemma test_push_is_a_single_user_request_witness :
  exists r,
    Wire.read_request (App.test_body "u1" "2024-01-02T00:00:00.000Z") = Some r
    /\ map Dispatch.msg_to
         (DispatchSpec.posts
            (Dispatch.calls
               (snd (Dispatch.handler Sample.all_ok (DispatchSpec.post r)
                       Sample.world))))
       = [["ExponentPushToken[a]"; "ExponentPushToken[b]"]].
Proof.
  destruct (test_push_is_a_single_user_request "u1" "2024-01-02T00:00:00.000Z")
    as (r & Hr & _ & _ & _ & _ & Hh).
  exists r. split; [exact Hr|].
  vm_compute in Hr. injection Hr as <-.
  rewrite (Hh ltac:(discriminate) Sample.all_ok Sample.world _ _ eq_refl).
  reflexivity.
Defined.

(** X18. [NotificationService.sendTestNotification] never throws.  What it
    returns and what it invokes do not depend on how the insert into the
    in-app table went: it returns true exactly when a user is signed in and
    the one invocation it makes resolved without an error.  A row it inserts
    has the type "test", for which the realtime listener invokes nothing, so
    the test causes no second push. *)
Theorem notification_sendTestNotification_pushes_once env a :
  exists b a' rows,
    App.notification_sendTestNotification env a = (Returns b, a')
    /\ App.notifications a' = App.notifications a ++ rows
    /\ length rows <= 1
    /\ Forall (fun row =>
                 App.row_type row = "test"
                 /\ forall id user,
                      on_insert user (App.inserted_event id row) = [])
         rows
    /\ length (App.invocations a') <= S (length (App.invocations a))
    /\ (b = true
        <-> (exists id, signed_in (App.device env) = Returns (Some id))
            /\ App.functions env (length (App.invocations a))
               = App.Invoked None).
Proof.
  destruct a as [[init tok perm table log] invs notes hasp tsts].
  destruct env as [[dev rejects answer project pushed user os_ dn ov mn mode time]
                     fns ins].
  cbn [App.device signed_in App.invocations App.notifications App.functions].
  unfold App.notification_sendTestNotification, App.sendTestNotification,
    App.getUser, App.clock, App.invoke, App.insert_notification,
    App.service, App.with_client, getUser, clock, try_catch, bind, ret, issue.
  cbn -[length].
  destruct user as [[id|]|msg]; cbn -[length];
    [destruct ins; cbn -[length];
     destruct (fns (length invs)) as [[e|]|m]; cbn -[length] | | ];
    eexists _, _, _; (split; [reflexivity|]);
    cbn [App.invocations App.notifications];
    (split; [first [reflexivity | symmetry; apply app_nil_r]|]);
    rewrite ?length_app; cbn [length];
    (split; [lia|]);
    (split; [first [apply Forall_nil
                   | apply Forall_cons;
                     [split; [reflexivity | intros; reflexivity]
                     | apply Forall_nil]]|]);
    (split; [lia|]);
    (split;
     [ intro H;
       first [discriminate H | split; [eexists; reflexivity | reflexivity]]
     | intros ((i & Hi) & Hf); try reflexivity; try discriminate;
       try congruence ]).
Qed.

(** X19. The hook's [checkPermissions] never throws; the value it returns is
    the value it stores in [hasPermission], and it returns true only when
    the service holds a non-empty token.  It shows no toast and invokes
    nothing. *)
Theorem checkPermissions_mirrors_state env a :
  exists b a',
    App.checkPermissions env a = (Returns b, a')
    /\ App.hasPermission a' = b
    /\ (b = true ->
        exists t, getToken (App.client a') = Some t /\ t <> "")
    /\ App.toasts a' = App.toasts a
    /\ App.invocations a' = App.invocations a.
Proof.
  destruct a as [[init tok perm table log] invs notes hasp tsts].
  destruct env as [[dev rejects answer project pushed user os_ dn ov mn mode time]
                     fns ins].
  run_app;
    eexists _, _; (split; [reflexivity|]);
    repeat split; try reflexivity;
    first [ intro H; discriminate H
          | intros _; eexists; split; [reflexivity | discriminate] ].
Qed.

(** X20. The hook's [requestPermissions] never throws and shows exactly one
    toast per call: a destructive one exactly when it returns false.  When
    it returns true, [hasPermission] is set and the service holds a
    non-empty token. *)
Theorem requestPermissions_toasts_once env a :
  exists b a' t,
    App.requestPermissions env a = (Returns b, a')
    /\ App.toasts a' = App.toasts a ++ [t]
    /\ App.destructive t = negb b
    /\ (b = true ->
        App.hasPermission a' = true
        /\ exists tok, getToken (App.client a') = Some tok /\ tok <> "").
Proof.
  destruct a as [[init tok perm table log] invs notes hasp tsts].
  destruct env as [[dev rejects answer project pushed user os_ dn ov mn mode time]
                     fns ins].
  run_app;
    eexists _, _, _; (split; [reflexivity|]);
    (split; [reflexivity|]); (split; [reflexivity|]);
    first [ intro H; discriminate H
          | intros _; split;
            [reflexivity | eexists; split; [reflexivity | discriminate]] ].
Qed.

(** X21. The hook's [sendTestNotification] awaits the auth lookup outside
    any [try]: when that lookup rejects, the rejection leaves the function;
    in every other case the function returns, false with one destructive
    toast when nobody is signed in. *)
Theorem hook_sendTestNotification_lets_auth_failure_out env a :
  match signed_in (App.device env) with
  | Throws msg => fst (App.hook_sendTestNotification env a) = Throws msg
  | Returns None =>
      exists t,
        App.hook_sendTestNotification env a
        = (Returns false,
           {| App.client := issue AuthGetUser (App.client a);
              App.invocations := App.invocations a;
              App.notifications := App.notifications a;
              App.hasPermission := App.hasPermission a;
              App.toasts := App.toasts a ++ [t] |})
        /\ App.destructive t = true
  | Returns (Some _) =>
      exists b, fst (App.hook_sendTestNotification env a) = Returns b
  end.
Proof.
  destruct a as [[init tok perm table log] invs notes hasp tsts].
  destruct env as [[dev rejects answer project pushed user os_ dn ov mn mode time]
                     fns ins].
  cbn [App.device signed_in].
  unfold App.hook_sendTestNotification, App.sendTestNotification,
    App.getUser, App.clock, App.invoke, App.toast,
    App.service, App.with_client, getUser, clock, try_catch, bind, ret, issue.
  cbn -[length].
  destruct user as [[id|]|msg]; cbn -[length].
  - destruct (fns (length invs)) as [[e|]|m]; eexists; reflexivity.
  - eexists. split; reflexivity.
  - reflexivity.
Qed.

(** X22. The hook's [showNotification] never throws, also not when the auth
    lookup rejects.  It invokes the edge function at most once, and only
    after [checkPermissions] held and for a signed-in user, whose id goes
    under the key [userId]; the only toast it can show is the destructive
    "Failed to send notification". *)
Theorem showNotification_invokes_at_most_once env title body data a :
  exists a',
    App.showNotification env title body data a = (Returns tt, a')
    /\ (App.invocations a' = App.invocations a
        \/ exists id,
             signed_in (App.device env) = Returns (Some id)
             /\ App.hasPermission a' = true
             /\ App.invocations a'
                = App.invocations a
                  ++ [{| function_name := "send-expo-notification";
                         invocation_body :=
                           [("userId", JStr id);
                            ("title", JStr title);
                            ("body", JStr body);
                            ("data",
                             JObj (obj_spread [("type", JStr "test")]
                                     (match data with
                                      | Some o => o
                                      | None => []
                                      end)))] |}])
    /\ (App.toasts a' = App.toasts a
        \/ App.toasts a' = App.toasts a ++ [App.failed_to_send]).
Proof.
  destruct a as [[init tok perm table log] invs notes hasp tsts].
  destruct env as [[dev rejects answer project pushed user os_ dn ov mn mode time]
                     fns ins].
  cbn [App.device signed_in].
  run_app;
    try (match goal with
         | |- context [fns ?n] => destruct (fns n) as [[e|]|m]
         end;
         cbn -[upsert_row String.append filter length obj_spread]);
    eexists; (split; [reflexivity|]);
    cbn [App.invocations App.toasts App.hasPermission];
    (split;
     [ first [ left; reflexivity
             | right; eexists; repeat split; reflexivity ]
     | first [ left; reflexivity | right; reflexivity ] ]).
Qed.

(** X23. The body [showNotification] sends reads, in the edge function, as
    a request for that one user, and the type logged with its deliveries is
    the caller's own [data.type] when that is truthy, "unknown" when the
    caller's [data.type] is falsy, and "test" when the caller's data has no
    [type]. *)
Theorem shown_notification_type id title body data :
  exists r,
    Wire.read_request
      [("userId", JStr id);
       ("title", JStr title);
       ("body", JStr body);
       ("data", JObj (obj_spread [("type", JStr "test")] data))]
    = Some r
    /\ Dispatch.userId r = Some id
    /\ Dispatch.topic r = None
    /\ Dispatch.delivery_type r
       = match lookup "type" (rev data) with
         | Some v => if truthy v then v else JStr "unknown"
         | None => JStr "test"
         end.
Proof.
  eexists. split; [reflexivity|]. do 2 (split; [reflexivity|]).
  unfold Dispatch.delivery_type. cbn [Dispatch.data].
  rewrite lookup_obj_spread.
  destruct (lookup "type" (rev data)); reflexivity.
Qed.

(** X24. The hook's [initializeNotifications], run on mount, never throws,
    shows no toast and invokes nothing.  It may save the token a second time
    after [initialize] saved it; a Token Store without duplicate keys has
    none afterwards. *)
Theorem initializeNotifications_on_mount env a :
  keys_unique (fcm_tokens (App.client a)) ->
  exists a',
    App.initializeNotifications env a = (Returns tt, a')
    /\ App.toasts a' = App.toasts a
    /\ App.invocations a' = App.invocations a
    /\ keys_unique (fcm_tokens (App.client a')).
Proof.
  destruct a as [[init tok perm table log] invs notes hasp tsts].
  destruct env as [[dev rejects answer project pushed user os_ dn ov mn mode time]
                     fns ins].
  cbn [App.client fcm_tokens]. intro U.
  run_app;
    eexists; (split; [reflexivity|]);
    cbn [App.client App.toasts App.invocations App.hasPermission fcm_tokens];
    (split; [reflexivity|]); (split; [reflexivity|]);
    first [ exact U
          | apply upsert_row_unique; exact U
          | apply upsert_row_unique, upsert_row_unique; exact U ].
Qed.

Lemma initializeNotifications_on_mount_witness :
  exists a',
    App.initializeNotifications (app_env Sample.phone (App.Invoked None))
      (app_world Sample.fresh)
    = (Returns tt, a')
    /\ App.hasPermission a' = true
    /\ length (filter (fun c => match c with Upsert _ => true | _ => false end)
                 (sdk_calls (App.client a')))
       = 2
    /\ length (fcm_tokens (App.client a')) = length Sample.store_rows.
Proof.
  destruct (initializeNotifications_on_mount
              (app_env Sample.phone (App.Invoked None))
              (app_world Sample.fresh) sample_rows_unique)
    as (a' & H & _).
  exists a'. split; [exact H|].
  vm_compute in H. injection H as <-. repeat split.
Defined.

Lemma service_sendTestNotification_witness :
  fst (App.sendTestNotification (app_env Sample.phone (App.Invoked None))
         (app_world Sample.fresh))
  = Returns true
  /\ fst (App.sendTestNotification
            (app_env Sample.phone (App.Invoked (Some "500")))
            (app_world Sample.fresh))
     = Returns false.
Proof.
  split.
  - destruct (service_sendTestNotification
                (app_env Sample.phone (App.Invoked None))
                (app_world Sample.fresh))
      as (b & a' & H & _ & _ & _ & Hb).
    rewrite H. cbn [fst]. f_equal. apply Hb. reflexivity.
  - destruct (service_sendTestNotification
                (app_env Sample.phone (App.Invoked (Some "500")))
                (app_world Sample.fresh))
      as (b & a' & H & _ & _ & _ & Hb).
    rewrite H. cbn [fst]. f_equal.
    destruct b; [|reflexivity].
    pose proof (proj1 Hb eq_refl) as D. discriminate D.
Defined.

Lemma notification_sendTestNotification_pushes_once_witness :
  exists b a' rows,
    App.notification_sendTestNotification
      (app_env Sample.phone (App.Invoked None)) (app_world Sample.fresh)
    = (Returns b, a')
    /\ b = true
    /\ App.notifications a' = rows
    /\ length rows <= 1.
Proof.
  destruct (notification_sendTestNotification_pushes_once
              (app_env Sample.phone (App.Invoked None))
              (app_world Sample.fresh))
    as (b & a' & rows & H & Hn & Hl & _ & _ & Hb).
  exists b, a', rows. split; [exact H|].
  split; [|split; [exact Hn | exact Hl]].
  apply Hb. split; [eexists; reflexivity | reflexivity].
Defined.

Lemma checkPermissions_mirrors_state_witness :
  exists a' t,
    App.checkPermissions (app_env Sample.phone (App.Invoked None))
      (app_world Sample.fresh)
    = (Returns true, a')
    /\ App.hasPermission a' = true
    /\ getToken (App.client a') = Some t /\ t <> "".
Proof.
  destruct (checkPermissions_mirrors_state
              (app_env Sample.phone (App.Invoked None))
              (app_world Sample.fresh))
    as (b & a' & H & Hs & Ht & _).
  assert (Hb : b = true) by (vm_compute in H; congruence).
  destruct (Ht Hb) as (t & Htok & Hne).
  rewrite Hb in H, Hs.
  exists a', t. auto.
Defined.

Lemma requestPermissions_toasts_once_witness :
  exists a' t,
    App.requestPermissions (app_env Sample.phone (App.Invoked None))
      (app_world Sample.fresh)
    = (Returns true, a')
    /\ App.toasts a' = [t]
    /\ App.destructive t = false
    /\ App.hasPermission a' = true.
Proof.
  destruct (requestPermissions_toasts_once
              (app_env Sample.phone (App.Invoked None))
              (app_world Sample.fresh))
    as (b & a' & t & H & Ht & Hd & Hp).
  assert (Hb : b = true) by (vm_compute in H; congruence).
  rewrite Hb in H, Hd. exists a', t.
  split; [exact H|]. split; [exact Ht|].
  split; [exact Hd | exact (proj1 (Hp Hb))].
Defined.

End AppFacts.
